(** * AI Course Generator frontend: the incremental disclosure state machine

    A shallow embedding of [src/frontend/main.js]: the course store
    ([currentCourse]), the two click handlers [toggleWeekExpand] and
    [loadDayContent] with their suspended continuations, the error path of
    [handleGenerate], and the markup produced by the render functions.

    JavaScript runs each handler to its next [await]; the model therefore
    splits every async function at its [fetch] into a synchronous first half
    (the click) and a resumption (the response), and keeps the suspended
    continuations in the state.  Week objects are identified by their index
    in [currentCourse.weeks], whose shape never changes; day objects live in
    a heap, because a continuation keeps a reference to the day it was
    started for even when the week's [_days] array is replaced later. *)

From Stdlib Require Import ZArith String Ascii Lia.
From stdpp Require Import base list strings pretty.

Open Scope Z_scope.

(** ** Data model *)

(** A day object's address in the heap of day objects. *)
Definition loc := nat.

Module Resource.
Record t := mk {
  source : option string;
  url : option string;
  title : option string;
  description : option string;
  thumbnail : option string;
}.
End Resource.

(** A field of type [option _] is [None] when the property is missing or
    [null]; [_loaded] is [false] also when the property is missing.  Week
    numbers, day numbers and durations are integers; what JavaScript's
    arithmetic gives on them is written out at [globalDay]. *)
Module Day.
Record t := mk {
  day : Z;
  title : option string;
  concepts : option (list string);
  task_type : option string;
  duration_minutes : option Z;
  _loaded : bool;
  description : option string;
  table_of_contents : option (list string);
  resources : option (list Resource.t);
}.

Definition set_loaded (b : bool) (d : t) : t :=
  mk (day d) (title d) (concepts d) (task_type d) (duration_minutes d) b
     (description d) (table_of_contents d) (resources d).
End Day.

(** The JSON object answered by [/api/generate/day].  Nothing checks its
    shape, so it may carry any property of a day: the outer [option] says
    whether the property is there, the inner one whether it is non-null. *)
Module DayDetails.
Record t := mk {
  day : option Z;
  title : option (option string);
  concepts : option (option (list string));
  task_type : option (option string);
  duration_minutes : option (option Z);
  _loaded : option bool;
  description : option (option string);
  table_of_contents : option (option (list string));
  resources : option (option (list Resource.t));
}.
End DayDetails.

(** [Object.assign(day, details)]: every property of [details] overwrites
    the day's, the others are kept. *)
Definition assign (d : Day.t) (details : DayDetails.t) : Day.t :=
  Day.mk (default (Day.day d) (DayDetails.day details))
         (default (Day.title d) (DayDetails.title details))
         (default (Day.concepts d) (DayDetails.concepts details))
         (default (Day.task_type d) (DayDetails.task_type details))
         (default (Day.duration_minutes d) (DayDetails.duration_minutes details))
         (default (Day._loaded d) (DayDetails._loaded details))
         (default (Day.description d) (DayDetails.description details))
         (default (Day.table_of_contents d) (DayDetails.table_of_contents details))
         (default (Day.resources d) (DayDetails.resources details)).

Module Week.
Record t := mk {
  week : Z;
  title : option string;
  focus : option string;
  concepts : option (list string);
  _days : option (list loc);
  _expanded : bool;
  _loading : bool;
}.

Definition set_days (ds : list loc) (w : t) : t :=
  mk (week w) (title w) (focus w) (concepts w) (Some ds) (_expanded w) (_loading w).
Definition set_expanded (b : bool) (w : t) : t :=
  mk (week w) (title w) (focus w) (concepts w) (_days w) b (_loading w).
Definition set_loading (b : bool) (w : t) : t :=
  mk (week w) (title w) (focus w) (concepts w) (_days w) (_expanded w) b.
End Week.

(** [currentCourse.requestParams], set by [handleGenerate]. *)
Record Params := mkParams { goal : string; model : string }.

(** ** The network *)

(** Request bodies, as passed to [JSON.stringify]. *)
Record WeekRequest := mkWeekRequest {
  wr_goal : string;
  week_number : Z;
  week_title : option string;
  wr_concepts : list string;
  wr_model : string;
}.

Record DayRequest := mkDayRequest {
  dr_goal : string;
  day_title : option string;
  day_number : option Z;          (* [None]: not finite, which JSON writes as null *)
  dr_duration_minutes : Z;
  dr_task_type : string;
  dr_model : string;
}.

Inductive Request :=
| PostWeek (body : WeekRequest)   (* POST /api/generate/week *)
| PostDay (body : DayRequest).    (* POST /api/generate/day *)

(** What [response.json()] gives: the parsed object, or a rejection with the
    engine's message when the body is not JSON.  Of the object, [detail] is
    the property the backend puts its error message in and [data] the
    properties the endpoint's caller reads. *)
Inductive Body (A : Type) :=
| Json (detail : option string) (data : A)
| Malformed (message : string).
Arguments Json {A} detail data.
Arguments Malformed {A} message.

(** What [await fetch(...)] gives: a rejection (the backend is unreachable)
    or a response with its status. *)
Inductive Response (A : Type) :=
| Rejected (message : string)
| Http (status : Z) (body : Body A).
Arguments Rejected {A} message.
Arguments Http {A} status body.

(** [response.ok] *)
Definition ok (status : Z) : bool := (200 <=? status) && (status <=? 299).

(** The object answered by [/api/generate/week]. *)
Record WeekJson := mkWeekJson { days : option (list Day.t) }.

(** ** Exceptions *)

Inductive Result (A : Type) :=
| Return (a : A)
| Throw (message : string).
Arguments Return {A} a.
Arguments Throw {A} message.

#[global] Instance Result_ret : MRet Result := λ A a, Return a.
#[global] Instance Result_bind : MBind Result := λ A B k m,
  match m with
  | Return a => k a
  | Throw e => Throw e
  end.

(** [await response.json()] *)
Definition json {A} (b : Body A) : Result A :=
  match b with
  | Json _ data => Return data
  | Malformed e => Throw e
  end.

(** ** The page *)

(** A day card of the timeline: the element with id [day-<week>-<day>], and
    how many loading indicators were appended to it since it was rendered. *)
Record DayEl := mkDayEl { el_week : Z; el_day : Z; spinners : nat }.

Record Toast := mkToast { message : string; isError : bool }.

(** A continuation suspended at its [fetch], with the object it captured. *)
Inductive Pending :=
| PendingWeek (weekIndex : nat)   (* [toggleWeekExpand], holding [weeks[weekIndex]] *)
| PendingDay (d : loc).           (* [loadDayContent], holding the day object *)

Record State := mkState {
  weeks : list Week.t;            (* currentCourse.weeks *)
  requestParams : Params;         (* currentCourse.requestParams *)
  heap : list Day.t;              (* the day objects, by address *)
  timeline : list DayEl;          (* the day cards inside #timelineContent *)
  inflight : list Pending;        (* fetches awaiting their response *)
  calls : list Request;           (* every fetch issued so far, oldest first *)
  toasts : list Toast;            (* every showToast so far, oldest first *)
  console : list string;          (* console.error *)
}.

Definition set_weeks (ws : list Week.t) (st : State) : State :=
  mkState ws (requestParams st) (heap st) (timeline st) (inflight st)
          (calls st) (toasts st) (console st).
Definition set_heap (h : list Day.t) (st : State) : State :=
  mkState (weeks st) (requestParams st) h (timeline st) (inflight st)
          (calls st) (toasts st) (console st).
Definition set_timeline (t : list DayEl) (st : State) : State :=
  mkState (weeks st) (requestParams st) (heap st) t (inflight st)
          (calls st) (toasts st) (console st).
Definition set_inflight (p : list Pending) (st : State) : State :=
  mkState (weeks st) (requestParams st) (heap st) (timeline st) p
          (calls st) (toasts st) (console st).

(** [fetch(url, {body})]: the request goes out and the caller is suspended. *)
Definition fetch (r : Request) (k : Pending) (st : State) : State :=
  mkState (weeks st) (requestParams st) (heap st) (timeline st)
          (inflight st ++ [k]) (calls st ++ [r]) (toasts st) (console st).

Definition showToast (msg : string) (st : State) : State :=
  mkState (weeks st) (requestParams st) (heap st) (timeline st) (inflight st)
          (calls st) (toasts st ++ [mkToast msg true]) (console st).

Definition console_error (e : string) (st : State) : State :=
  mkState (weeks st) (requestParams st) (heap st) (timeline st) (inflight st)
          (calls st) (toasts st) (console st ++ [e]).

(** [week.<field> = ...] on the week object [weeks[i]]. *)
Definition update_week (i : nat) (f : Week.t → Week.t) (st : State) : State :=
  set_weeks (alter f i (weeks st)) st.

(** ** Rendering, as far as the handlers observe it *)

(** The day cards [renderWeekCard] emits: those of the weeks that are
    expanded and have their days, in document order.  This is the page as
    the templates describe it: it takes for granted that the browser parses
    every interpolated text as text.  [week.focus] and [day.task_type] are
    interpolated unescaped (see [Markup.renderWeekCard] and
    [Markup.renderDayCard]), so a course in which one of them holds markup
    can add elements to the page or hide cards from it, and such a page is
    not described by these cards. *)
Definition week_day_cards (h : list Day.t) (w : Week.t) : list DayEl :=
  match Week._days w with
  | Some ds =>
      if Week._expanded w
      then omap (λ l, d ← h !! l; Some (mkDayEl (Week.week w) (Day.day d) 0)) ds
      else []
  | None => []
  end.

(** [renderWeeklyTimeline(weeks)] replaces the content of [#timelineContent];
    month headers group the week cards without reordering them.  The weeks
    rendered are those of the current course: a continuation that an earlier
    course left suspended, and that renders that course's weeks when it
    resumes, is not part of a [State]. *)
Definition renderWeeklyTimeline (st : State) : State :=
  set_timeline (mbind (week_day_cards (heap st)) (weeks st)) st.

(** [$(`#day-${weekNum}-${dayNum}`)]: the first element with that id, among
    the day cards of the timeline; no other template of the file writes an
    id of this form. *)
Definition query_day (weekNum dayNum : Z) (st : State) : option (nat * DayEl) :=
  list_find (λ e, el_week e = weekNum ∧ el_day e = dayNum) (timeline st).

(** [dayEl.innerHTML += '<div class="spinner-small" ...>'] *)
Definition append_spinner (i : nat) (st : State) : State :=
  set_timeline
    (alter (λ e, mkDayEl (el_week e) (el_day e) (S (spinners e))) i (timeline st)) st.

(** ** JavaScript's [||] on the values the handlers apply it to *)

(** [s || fallback] for a string property: missing, [null] and the empty
    string are falsy. *)
Definition or_string (s : option string) (fallback : string) : string :=
  match s with
  | Some EmptyString | None => fallback
  | Some s => s
  end.

(** [n || fallback] for a number property: missing, [null] and 0 are falsy. *)
Definition or_number (n : option Z) (fallback : Z) : Z :=
  match n with
  | Some 0 | None => fallback
  | Some n => n
  end.

(** ** The disclosure controller *)

(** [weeks.findIndex(w => w.week === weekNum)], with the week found. *)
Definition find_week (weekNum : Z) (ws : list Week.t) : option (nat * Week.t) :=
  list_find (λ w, Week.week w = weekNum) ws.

(** [week._days.find(d => d.day === dayNum)], with the address of the day
    found. *)
Fixpoint find_day (h : list Day.t) (dayNum : Z) (ds : list loc) : option (loc * Day.t) :=
  match ds with
  | [] => None
  | l :: ds =>
      match h !! l with
      | Some d => if decide (Day.day d = dayNum) then Some (l, d) else find_day h dayNum ds
      | None => find_day h dayNum ds
      end
  end.

(** ** JavaScript's arithmetic on integers *)

(** The number JavaScript has for the integer [z]: the nearest double, the
    one with the even significand when two are as near.  An integer of
    magnitude up to [2^53] is a double; a larger one keeps its 53 leading
    bits.  [None] stands for an infinity, which the rounding gives from
    [2^1024 - 2^970] on. *)
Definition to_double (z : Z) : option Z :=
  let a := Z.abs z in
  if a <=? 2 ^ 53 then Some z
  else
    let ulp := 2 ^ (Z.log2 a - 52) in
    let q := a / ulp in
    let r := a mod ulp in
    let q := if 2 * r <? ulp then q
             else if ulp <? 2 * r then q + 1
             else if Z.even q then q else q + 1 in
    if 2 ^ 1024 <=? q * ulp then None else Some (Z.sgn z * (q * ulp)).

(** [(weekNum - 1) * 7 + dayNum], for numbers of the program, which are
    doubles themselves: each operation gives the double nearest to its exact
    result, and an infinity stays one under the operations that follow.
    [renderDayCard] computes the same for its [globalDay], and
    [loadDayContent] for the [day_number] it sends. *)
Definition globalDay (weekNum dayNum : Z) : option Z :=
  a ← to_double (weekNum - 1);
  b ← to_double (a * 7);
  to_double (b + dayNum).

Definition week_request (params : Params) (week : Week.t) : Request :=
  PostWeek {| wr_goal := goal params;
              week_number := Week.week week;
              week_title := Week.title week;
              wr_concepts := default [] (Week.concepts week);
              wr_model := model params |}.

Definition day_request (params : Params) (weekNum dayNum : Z) (day : Day.t) : Request :=
  PostDay {| dr_goal := goal params;
             day_title := Day.title day;
             day_number := globalDay weekNum dayNum;
             dr_duration_minutes := or_number (Day.duration_minutes day) 60;
             dr_task_type := or_string (Day.task_type day) "theory";
             dr_model := model params |}.

(** [toggleWeekExpand(weekNum)], up to its [await fetch]. *)
Definition toggleWeekExpand (weekNum : Z) (st : State) : State :=
  match find_week weekNum (weeks st) with
  | None => st
  | Some (weekIndex, week) =>
      if Week._expanded week then
        renderWeeklyTimeline (update_week weekIndex (Week.set_expanded false) st)
      else
        match Week._days week with
        | None =>
            let st := renderWeeklyTimeline (update_week weekIndex (Week.set_loading true) st) in
            fetch (week_request (requestParams st) week) (PendingWeek weekIndex) st
        | Some _ =>
            renderWeeklyTimeline (update_week weekIndex (Week.set_expanded true) st)
        end
  end.

(** The [try] block of [toggleWeekExpand] from the response on.  Nothing of
    the state is read or written between its two [await]s, so they are one
    step. *)
Definition week_try (r : Response WeekJson) : Result (list Day.t) :=
  match r with
  | Rejected e => Throw e
  | Http status body =>
      if negb (ok status) then Throw "Failed to load week details"
      else data ← json body; mret (default [] (days data))
  end.

(** The day objects of a parsed response are new objects. *)
Definition alloc (ds : list Day.t) (st : State) : list loc * State :=
  (seq (length (heap st)) (length ds), set_heap (heap st ++ ds) st).

(** [toggleWeekExpand] from its [await fetch] on, for the week object it
    holds. *)
Definition toggleWeekExpand_resume (weekIndex : nat) (r : Response WeekJson)
    (st : State) : State :=
  renderWeeklyTimeline
    match week_try r with
    | Return ds =>
        let '(ls, st) := alloc ds st in
        update_week weekIndex (Week.set_expanded true)
          (update_week weekIndex (Week.set_loading false)
             (update_week weekIndex (Week.set_days ls) st))
    | Throw e =>
        showToast "Failed to load week details. Click to retry."
          (update_week weekIndex (Week.set_loading false) (console_error e st))
    end.

(** [loadDayContent(weekNum, dayNum)], up to its [await fetch].
    [event.stopPropagation()] keeps the click from reaching the week header
    and touches nothing of the state. *)
Definition loadDayContent (weekNum dayNum : Z) (st : State) : State :=
  match find_week weekNum (weeks st) with
  | None => st
  | Some (_, week) =>
      match Week._days week with
      | None => st
      | Some ds =>
          match find_day (heap st) dayNum ds with
          | None => st
          | Some (l, day) =>
              if Day._loaded day then st
              else
                match query_day weekNum dayNum st with
                | None => st
                | Some (dayEl, _) =>
                    let st := append_spinner dayEl st in
                    fetch (day_request (requestParams st) weekNum dayNum day)
                          (PendingDay l) st
                end
          end
      end
  end.

(** The [try] block of [loadDayContent] from the response on. *)
Definition day_try (r : Response DayDetails.t) : Result DayDetails.t :=
  match r with
  | Rejected e => Throw e
  | Http status body =>
      if negb (ok status) then Throw "Failed to load day details"
      else json body
  end.

(** [loadDayContent] from its [await fetch] on, for the day object it holds. *)
Definition loadDayContent_resume (l : loc) (r : Response DayDetails.t)
    (st : State) : State :=
  match day_try r with
  | Return details =>
      renderWeeklyTimeline
        (set_heap (alter (λ day, Day.set_loaded true (assign day details)) l (heap st)) st)
  | Throw e =>
      showToast "Failed to load day details." (console_error e st)
  end.

(** ** Events *)

(** What can happen between two suspension points: a click on a week header,
    a click on a day card, or the response to the [k]-th fetch in flight. *)
Inductive Event :=
| Toggle (weekNum : Z)
| Load (weekNum dayNum : Z)
| WeekResponse (k : nat) (r : Response WeekJson)
| DayResponse (k : nat) (r : Response DayDetails.t).

(** One event; [None] when there is no such fetch to answer. *)
Definition step (e : Event) (st : State) : option State :=
  match e with
  | Toggle weekNum => Some (toggleWeekExpand weekNum st)
  | Load weekNum dayNum => Some (loadDayContent weekNum dayNum st)
  | WeekResponse k r =>
      match inflight st !! k with
      | Some (PendingWeek weekIndex) =>
          Some (toggleWeekExpand_resume weekIndex r (set_inflight (delete k (inflight st)) st))
      | _ => None
      end
  | DayResponse k r =>
      match inflight st !! k with
      | Some (PendingDay l) =>
          Some (loadDayContent_resume l r (set_inflight (delete k (inflight st)) st))
      | _ => None
      end
  end.

Fixpoint run (es : list Event) (st : State) : option State :=
  match es with
  | [] => Some st
  | e :: es => st ← step e st; run es st
  end.

(** ** Outline generation *)

Inductive Page := landing | loading | courseView.

(** The object answered by [/api/generate/outline]. *)
Record OutlineJson := mkOutlineJson {
  o_title : option string;
  o_description : option string;
  prerequisites : option (list string);
  o_weeks : option (list Week.t);
  o_classes : option nat;          (* course.classes.length, when there is one *)
}.

(** A JSON value, as far as [handleGenerate] tells values apart: of
    [err.detail] it takes the truth value and the string.  A number is given
    by whether it is zero and by its text.  The string of an object is the
    same for every object, except one that has a property named [toString]
    of its own: JSON holds no function, so that the conversion gets no
    string from it and throws a [TypeError], with the engine's message. *)
#[warnings="-register-all"]
Inductive JsonValue :=
| JNull
| JBool (b : bool)
| JNumber (zero : bool) (text : string)
| JString (s : string)
| JArray (items : list JsonValue)
| JObject (toString_error : option string).

(** Whether [v || ...] keeps [v]. *)
Definition truthy (v : JsonValue) : bool :=
  match v with
  | JNull => false
  | JBool b => b
  | JNumber zero _ => negb zero
  | JString s => negb (String.eqb s "")
  | JArray _ | JObject _ => true
  end.

(** [String(v)], which is what [new Error(v)] keeps as its message.  An
    array joins the strings of its elements with commas, converting them
    from the first on, [null] giving the empty string there. *)
Fixpoint ToString (v : JsonValue) : Result string :=
  match v with
  | JNull => Return "null"
  | JBool true => Return "true"
  | JBool false => Return "false"
  | JNumber _ text => Return text
  | JString s => Return s
  | JArray items =>
      strings ←
        (fix each (items : list JsonValue) : Result (list string) :=
           match items with
           | [] => Return []
           | x :: items =>
               s ← match x with JNull => Return "" | _ => ToString x end;
               strings ← each items;
               Return (s :: strings)
           end) items;
      Return (String.concat "," strings)
  | JObject None => Return "[object Object]"
  | JObject (Some e) => Throw e
  end.

(** What [response.json()] gives for the outline endpoint:
    - an object, with its [detail] when it has one and with the properties
      of a course: each of the type the backend's schema gives it or
      missing, or, when one of them is of a type on which the rendering
      throws, the message of that error; a number, a string, a boolean or
      an array has none of these properties and is the object without them;
    - [null], of which no property can be read or set: the engine throws a
      [TypeError], with its own message for the one and for the other;
    - a rejection, with the engine's message, when the body is not JSON. *)
Inductive OutlineBody :=
| OutlineObject (detail : option JsonValue) (course : Result OutlineJson)
| OutlineNull (read_error write_error : string)
| OutlineMalformed (message : string).

(** What [await fetch(...)] gives for the outline endpoint. *)
Inductive OutlineResponse :=
| OutlineRejected (message : string)
| OutlineHttp (status : Z) (body : OutlineBody).

(** [new Error(detail || fallback)], with the error's message; the
    conversion of [detail] to a string may throw instead. *)
Definition new_Error (detail : option JsonValue) (fallback : string) : Result string :=
  match detail with
  | Some v => if truthy v then ToString v else Return fallback
  | None => Return fallback
  end.

(** [throw e], for an expression [e] that may throw itself. *)
Definition throw {A} (e : Result string) : Result A :=
  match e with
  | Return message => Throw message
  | Throw message => Throw message
  end.

(** The [try] block of [handleGenerate] from the response on.  On an error
    status, [.catch(() => ({}))] makes a body that is not JSON the empty
    object, which has no [detail]; reading [detail] of [null] throws.  On a
    success status, [currentCourse.requestParams = ...] throws when the
    body is [null], and [renderCourse] when it cannot render the course. *)
Definition outline_try (r : OutlineResponse) : Result OutlineJson :=
  match r with
  | OutlineRejected e => Throw e
  | OutlineHttp status body =>
      if negb (ok status) then
        match body with
        | OutlineObject detail _ =>
            throw (new_Error detail ("Server error: " +:+ pretty status))
        | OutlineNull read_error _ => Throw read_error
        | OutlineMalformed _ =>
            throw (new_Error None ("Server error: " +:+ pretty status))
        end
      else
        match body with
        | OutlineObject _ (Return course) => Return course
        | OutlineObject _ (Throw e) => Throw e
        | OutlineNull _ write_error => Throw write_error
        | OutlineMalformed e => Throw e
        end
  end.

(** The course view right after [renderCourse]: no day object yet, nothing
    in flight.  Without [weeks] no week card is rendered and no handler can
    run, which the empty list stands for. *)
Definition course_state (course : OutlineJson) (params : Params) : State :=
  renderWeeklyTimeline (mkState (default [] (o_weeks course)) params [] [] [] [] [] []).

(** What [handleGenerate] does to [currentCourse]: nothing, [null] assigned
    to it, an answer assigned to it that was not rendered, or a course
    assigned to it. *)
Inductive CourseUpdate :=
| Kept
| Cleared
| Unrendered
| Replaced (st : State).

(** [handleGenerate] from its [await fetch] on: the page shown, the toast,
    and what became of [currentCourse].  On a success status the body is
    assigned to [currentCourse] before a later line throws. *)
Definition handleGenerate_resume (params : Params) (r : OutlineResponse)
    : Page * Toast * CourseUpdate :=
  match outline_try r with
  | Return course =>
      (courseView,
       mkToast "Course outline generated! Click weeks to load daily breakdown." false,
       Replaced (course_state course params))
  | Throw e =>
      (landing, mkToast (or_string (Some e) "Failed to generate course. Is Ollama running?") true,
       match r with
       | OutlineHttp status (OutlineNull _ _) => if ok status then Cleared else Kept
       | OutlineHttp status (OutlineObject _ _) => if ok status then Unrendered else Kept
       | _ => Kept
       end)
  end.

(** An outline as the backend sends it: without the client-only fields. *)
Definition outline_week (w : Week.t) : Prop :=
  Week._days w = None ∧ Week._expanded w = false ∧ Week._loading w = false.

(** The states of a course: from a fresh outline, by events that satisfy
    [allowed]. *)
Inductive reachable_by (allowed : Event → Prop) : State → Prop :=
| reachable_outline course params :
    Forall outline_week (default [] (o_weeks course)) →
    reachable_by allowed (course_state course params)
| reachable_step st e st' :
    reachable_by allowed st → allowed e → step e st = Some st' →
    reachable_by allowed st'.

(** By any events at all. *)
Definition reachable : State → Prop := reachable_by (λ _, True).

(** ** The markup

    Strings are sequences of UTF-8 bytes; every character the escaping
    functions look for is a single byte, except the no-break space. *)
Module Markup.

(** The double quote. *)
Definition dq : string := String "034" EmptyString.

(** JavaScript's truth value of a string property. *)
Definition truthy (s : option string) : bool :=
  match s with
  | Some (String _ _) => true
  | _ => false
  end.

(** What [innerHTML] gives back for an element whose [textContent] is [s]:
    the serialisation of a text node, which replaces [&], [<], [>] and the
    no-break space (bytes 194 160) and nothing else. *)
Fixpoint serialize_text (s : string) : string :=
  match s with
  | EmptyString => EmptyString
  | String c r =>
      match c with
      | "&"%char => "&amp;" +:+ serialize_text r
      | "<"%char => "&lt;" +:+ serialize_text r
      | ">"%char => "&gt;" +:+ serialize_text r
      | _ =>
          match r with
          | String c' r' =>
              if Ascii.eqb c "194" && Ascii.eqb c' "160"
              then "&nbsp;" +:+ serialize_text r'
              else String c (serialize_text r)
          | EmptyString => String c EmptyString
          end
      end
  end.

Definition escHtml (str : option string) : string :=
  match str with
  | Some (String _ _ as s) => serialize_text s
  | _ => ""
  end.

(** [s.replace(/c/g, by)] for a one-character pattern. *)
Fixpoint replace_all (c : ascii) (by_ : string) (s : string) : string :=
  match s with
  | EmptyString => EmptyString
  | String a r =>
      if Ascii.eqb a c then by_ +:+ replace_all c by_ r
      else String a (replace_all c by_ r)
  end.

Definition escAttr (str : option string) : string :=
  match str with
  | Some (String _ _ as s) =>
      replace_all ">" "&gt;"
        (replace_all "<" "&lt;"
           (replace_all "'" "&#39;"
              (replace_all "034" "&quot;"
                 (replace_all "&" "&amp;" s))))
  | _ => ""
  end.

(** The card of one video of [renderResources]. *)
Definition youtube_card (r : Resource.t) : string :=
  "
            <a href=" +:+ dq +:+
    escAttr (Resource.url r) +:+
    dq +:+ " target=" +:+ dq +:+ "_blank" +:+ dq +:+ " rel=" +:+ dq +:+ "noopener" +:+ dq +:+ " class=" +:+ dq +:+ "resource-card" +:+ dq +:+ ">
              " +:+
    (if truthy (Resource.thumbnail r)
     then "<img class=" +:+ dq +:+ "resource-thumb" +:+ dq +:+ " src=" +:+ dq +:+
    escAttr (Resource.thumbnail r) +:+
    dq +:+ " alt=" +:+ dq +:+
    escAttr (Resource.title r) +:+
    dq +:+ " loading=" +:+ dq +:+ "lazy" +:+ dq +:+ " onerror=" +:+ dq +:+ "this.style.display='none'" +:+ dq +:+ " />"
     else "<div class=" +:+ dq +:+ "resource-thumb" +:+ dq +:+ " style=" +:+ dq +:+ "display:flex;align-items:center;justify-content:center;font-size:2rem" +:+ dq +:+ ">🎬</div>") +:+
    "
              <div class=" +:+ dq +:+ "resource-info" +:+ dq +:+ ">
                <div class=" +:+ dq +:+ "resource-source youtube" +:+ dq +:+ ">▶ YouTube</div>
                <div class=" +:+ dq +:+ "resource-title" +:+ dq +:+ ">" +:+
    escHtml (Resource.title r) +:+
    "</div>
                " +:+
    (if truthy (Resource.description r)
     then "<div class=" +:+ dq +:+ "resource-desc" +:+ dq +:+ ">" +:+
    escHtml (Resource.description r) +:+
    "</div>"
     else "") +:+
    "
              </div>
            </a>
          ".

(** The card of one article of [renderResources]. *)
Definition web_card (r : Resource.t) : string :=
  "
            <a href=" +:+ dq +:+
    escAttr (Resource.url r) +:+
    dq +:+ " target=" +:+ dq +:+ "_blank" +:+ dq +:+ " rel=" +:+ dq +:+ "noopener" +:+ dq +:+ " class=" +:+ dq +:+ "resource-card" +:+ dq +:+ ">
              <div class=" +:+ dq +:+ "resource-info" +:+ dq +:+ ">
                <div class=" +:+ dq +:+ "resource-source web" +:+ dq +:+ ">🌐 Article</div>
                <div class=" +:+ dq +:+ "resource-title" +:+ dq +:+ ">" +:+
    escHtml (Resource.title r) +:+
    "</div>
                " +:+
    (if truthy (Resource.description r)
     then "<div class=" +:+ dq +:+ "resource-desc" +:+ dq +:+ ">" +:+
    escHtml (Resource.description r) +:+
    "</div>"
     else "") +:+
    "
              </div>
            </a>
          ".

Definition renderResources (resources : list Resource.t) : string :=
  match resources with
  | [] => ""
  | _ =>
  let youtube := filter (λ r, Resource.source r = Some "youtube") resources in
  let web := filter (λ r, Resource.source r = Some "web") resources in
  let html := "" in
  let html :=
    if (0 <? length youtube)%nat then html +:+
    "
      <div class=" +:+ dq +:+ "resources-section" +:+ dq +:+ ">
        <h4>🎬 YouTube Videos</h4>
        <div class=" +:+ dq +:+ "resources-grid" +:+ dq +:+ ">
          " +:+
    String.concat "" (map youtube_card youtube) +:+
    "
        </div>
      </div>
    "
    else html in
  let html :=
    if (0 <? length web)%nat then html +:+
    "
      <div class=" +:+ dq +:+ "resources-section" +:+ dq +:+ " style=" +:+ dq +:+ "margin-top:var(--space-lg)" +:+ dq +:+ ">
        <h4>🌐 Web Resources</h4>
        <div class=" +:+ dq +:+ "resources-grid" +:+ dq +:+ ">
          " +:+
    String.concat "" (map web_card web) +:+
    "
        </div>
      </div>
    "
    else html in
  html
  end.

Definition renderDayContent (task : Day.t) : string :=
  let tocHtml :=
    match Day.table_of_contents task with
    | Some ((_ :: _) as toc) =>
    "
            <div class=" +:+ dq +:+ "day-toc" +:+ dq +:+ " style=" +:+ dq +:+ "margin-top:15px; margin-bottom:15px;" +:+ dq +:+ ">
                <h5 style=" +:+ dq +:+ "margin:0 0 8px 0; color:var(--primary); font-size:0.9rem; text-transform:uppercase; letter-spacing:0.5px;" +:+ dq +:+ ">Table of Contents</h5>
                <ul style=" +:+ dq +:+ "margin:0; padding-left:20px; color:var(--text-secondary);" +:+ dq +:+ ">
                    " +:+
    String.concat "" (map (λ t, "<li style=" +:+ dq +:+ "margin-bottom:4px" +:+ dq +:+ ">" +:+
    escHtml (Some t) +:+
    "</li>") toc) +:+
    "
                </ul>
            </div>"
    | _ => ""
    end in
  "
        <div class=" +:+ dq +:+ "day-desc" +:+ dq +:+ ">" +:+
    escHtml (Day.description task) +:+
    "</div>
        " +:+
    tocHtml +:+
    "
        " +:+
    renderResources (default [] (Day.resources task)) +:+
    "
    ".

Definition renderDayCard (day : Day.t) (weekNum : Z) : string :=
  let isLoaded := Day._loaded day in
  let globalDay := globalDay weekNum (Day.day day) in
  let conceptsHtml :=
    match Day.concepts day with
    | Some ((_ :: _) as cs) =>
    "
        <div class=" +:+ dq +:+ "day-concepts" +:+ dq +:+ " style=" +:+ dq +:+ "margin-top:4px" +:+ dq +:+ ">
            " +:+
    String.concat "" (map (λ c, "<span class=" +:+ dq +:+ "concept-tag" +:+ dq +:+ ">" +:+
    escHtml (Some c) +:+
    "</span>") cs) +:+
    "
        </div>
        "
    | _ => ""
    end in
  let contentHtml :=
    if isLoaded then
    "<div class=" +:+ dq +:+ "day-content-area" +:+ dq +:+ ">" +:+
    renderDayContent day +:+
    "</div>"
    else "" in
  "
    <div class=" +:+ dq +:+ "timeline-day day-in-week " +:+
    (if isLoaded then "loaded" else "") +:+
    dq +:+ " 
         id=" +:+ dq +:+ "day-" +:+
    pretty weekNum +:+
    "-" +:+
    pretty (Day.day day) +:+
    dq +:+ "
         onclick=" +:+ dq +:+ "loadDayContent(" +:+
    pretty weekNum +:+
    ", " +:+
    pretty (Day.day day) +:+
    ")" +:+ dq +:+ " 
         style=" +:+ dq +:+ "cursor:pointer; margin-left: 16px; border-left: 2px solid var(--border-color); padding-left: 12px;" +:+ dq +:+ ">
        <div class=" +:+ dq +:+ "day-header" +:+ dq +:+ ">
            <span class=" +:+ dq +:+ "day-number" +:+ dq +:+ " style=" +:+ dq +:+ "font-size:0.75rem" +:+ dq +:+ ">Day " +:+
    pretty (Day.day day) +:+
    "</span>
            <span class=" +:+ dq +:+ "day-type " +:+
    or_string (Day.task_type day) "theory" +:+
    dq +:+ " style=" +:+ dq +:+ "font-size:0.65rem" +:+ dq +:+ ">" +:+
    or_string (Day.task_type day) "theory" +:+
    "</span>
            " +:+
    (if negb isLoaded
     then "<span class=" +:+ dq +:+ "day-status" +:+ dq +:+ " style=" +:+ dq +:+ "font-size:0.7em; opacity:0.6" +:+ dq +:+ ">Load details →</span>"
     else "") +:+
    "
        </div>
        <div class=" +:+ dq +:+ "day-title" +:+ dq +:+ " style=" +:+ dq +:+ "font-size:0.85rem" +:+ dq +:+ ">" +:+
    escHtml (Day.title day) +:+
    "</div>
        " +:+
    conceptsHtml +:+
    "
        " +:+
    contentHtml +:+
    "
    </div>
    ".

(** [renderWeekCard(week)]; [h] resolves the day objects of [week._days]. *)
Definition renderWeekCard (h : list Day.t) (week : Week.t) : string :=
  let focusClass := or_string (Week.focus week) "theory" in
  let isExpanded := Week._expanded week in
  let isLoading := Week._loading week in
  let conceptsHtml :=
    match Week.concepts week with
    | Some ((_ :: _) as cs) =>
    "
        <div class=" +:+ dq +:+ "day-concepts" +:+ dq +:+ ">
            " +:+
    String.concat "" (map (λ c, "<span class=" +:+ dq +:+ "concept-tag" +:+ dq +:+ ">" +:+
    escHtml (Some c) +:+
    "</span>") cs) +:+
    "
        </div>
        "
    | _ => ""
    end in
  let daysHtml :=
    match isExpanded, Week._days week with
    | true, Some ds =>
    "
        <div class=" +:+ dq +:+ "week-days-breakdown" +:+ dq +:+ ">
            " +:+
    String.concat "" (map (λ day, renderDayCard day (Week.week week)) (omap (λ l, h !! l) ds)) +:+
    "
        </div>
        "
    | _, _ =>
        if isLoading then
    "<div class=" +:+ dq +:+ "week-days-breakdown" +:+ dq +:+ "><div class=" +:+ dq +:+ "spinner-small" +:+ dq +:+ ">Loading daily breakdown...</div></div>"
        else ""
    end in
  "
    <div class=" +:+ dq +:+ "timeline-day week-card " +:+
    (if isExpanded then "expanded" else "") +:+
    dq +:+ " 
         id=" +:+ dq +:+ "week-" +:+
    pretty (Week.week week) +:+
    dq +:+ ">
        <div class=" +:+ dq +:+ "day-header" +:+ dq +:+ " onclick=" +:+ dq +:+ "toggleWeekExpand(" +:+
    pretty (Week.week week) +:+
    ")" +:+ dq +:+ " style=" +:+ dq +:+ "cursor:pointer" +:+ dq +:+ ">
            <span class=" +:+ dq +:+ "day-number" +:+ dq +:+ ">Week " +:+
    pretty (Week.week week) +:+
    "</span>
            <span class=" +:+ dq +:+ "day-type " +:+
    focusClass +:+
    dq +:+ ">" +:+
    focusClass +:+
    "</span>
            <span class=" +:+ dq +:+ "day-status" +:+ dq +:+ " style=" +:+ dq +:+ "font-size:0.8em; opacity:0.7" +:+ dq +:+ ">
                " +:+
    (if isExpanded then "▲ Collapse" else "▼ Click to expand days") +:+
    "
            </span>
        </div>
        <div class=" +:+ dq +:+ "day-title" +:+ dq +:+ ">" +:+
    escHtml (Week.title week) +:+
    "</div>
        " +:+
    conceptsHtml +:+
    "
        " +:+
    daysHtml +:+
    "
    </div>
    ".

Definition monthNames : list string :=
  ["Month 1"; "Month 2"; "Month 3"; "Month 4"; "Month 5"; "Month 6"; "Month 7"].

(** The markup [renderWeeklyTimeline(weeks)] puts into [#timelineContent]. *)
Definition renderWeeklyTimeline (h : list Day.t) (weeks : list Week.t) : string :=
  match weeks with
  | [] =>
    "<p style=" +:+ dq +:+ "color:var(--text-muted)" +:+ dq +:+ ">No timeline data available.</p>"
  | _ =>
  let totalMonths := ((length weeks + 3) / 4)%nat in
  "<div class=" +:+ dq +:+ "timeline" +:+ dq +:+ ">" +:+
  String.concat ""
    (map (λ m,
       let monthWeeks := take 4 (drop (m * 4) weeks) in
    "
        <div class=" +:+ dq +:+ "timeline-month" +:+ dq +:+ ">
            <div class=" +:+ dq +:+ "timeline-month-title" +:+ dq +:+ ">" +:+
    default ("Month " +:+ pretty (m + 1)%nat) (monthNames !! m) +:+
    "</div>
            " +:+
    String.concat "" (map (renderWeekCard h) monthWeeks) +:+
    "
        </div>
        ") (seq 0 totalMonths)) +:+
  "</div>"
  end.

(** The markup [renderCourse(course)] puts into [#courseHeader]; the
    timeline is [renderWeeklyTimeline] of the same weeks. *)
Definition renderCourse (course : OutlineJson) : string :=
  let weeks := default [] (o_weeks course) in
  let headerHtml :=
  "
    <h1 class=" +:+ dq +:+ "course-title" +:+ dq +:+ ">" +:+
    escHtml (o_title course) +:+
    "</h1>
    <p class=" +:+ dq +:+ "course-desc" +:+ dq +:+ ">" +:+
    escHtml (o_description course) +:+
    "</p>
    <div class=" +:+ dq +:+ "course-meta" +:+ dq +:+ ">
      <span class=" +:+ dq +:+ "meta-badge" +:+ dq +:+ ">📅 " +:+
    pretty (length weeks) +:+
    " weeks</span>
      <span class=" +:+ dq +:+ "meta-badge" +:+ dq +:+ ">📚 " +:+
    pretty (match o_classes course with Some (S n) => S n | _ => length weeks end) +:+
    " modules</span>
      <span class=" +:+ dq +:+ "meta-badge" +:+ dq +:+ ">⏱ ~" +:+
    pretty (length weeks * 5)%nat +:+
    " learning days</span>
    </div>
  " in
  let headerHtml :=
    match prerequisites course with
    | Some ((_ :: _) as ps) => headerHtml +:+
    "
        <div class=" +:+ dq +:+ "prerequisites-section" +:+ dq +:+ ">
            <h3 class=" +:+ dq +:+ "prereq-title" +:+ dq +:+ ">📋 Prerequisites & Basics</h3>
            <ul class=" +:+ dq +:+ "prereq-list" +:+ dq +:+ ">
                " +:+
    String.concat "" (map (λ p, "<li>" +:+
    escHtml (Some p) +:+
    "</li>") ps) +:+
    "
            </ul>
        </div>
        "
    | _ => headerHtml
    end in
  headerHtml.

End Markup.

(** ** Properties of states *)

#[global] Instance Pending_eq_dec : EqDecision Pending.
Proof. solve_decision. Defined.

(** How many fetches for the week object [weeks[i]] await their response. *)
Definition week_fetches_in_flight (i : nat) (st : State) : nat :=
  length (filter (λ p, p = PendingWeek i) (inflight st)).

(** A week that is expanded has its days. *)
Definition expanded_has_days (w : Week.t) : Prop :=
  Week._expanded w = true → Week._days w ≠ None.

(** A day that is loaded has its description. *)
Definition loaded_has_description (d : Day.t) : Prop :=
  Day._loaded d = true → Day.description d ≠ None.

(** [d] is a day object of a week of the course. *)
Definition day_of_course (st : State) (d : Day.t) : Prop :=
  ∃ w ds l, w ∈ weeks st ∧ Week._days w = Some ds ∧ l ∈ ds ∧ heap st !! l = Some d.

(** The responses of a backend that sends a description with every day's
    details, and no day marked loaded without one. *)
Definition describes_days (e : Event) : Prop :=
  match e with
  | WeekResponse _ (Http _ (Json _ data)) =>
      Forall loaded_has_description (default [] (days data))
  | DayResponse _ (Http _ (Json _ details)) =>
      ∃ s, DayDetails.description details = Some (Some s)
  | _ => True
  end.

(** A click that designates nothing: a week number that no week has, or a
    day whose week has no days or no day of that number. *)
Definition designates_nothing (e : Event) (st : State) : Prop :=
  match e with
  | Toggle weekNum => ∀ w, w ∈ weeks st → Week.week w ≠ weekNum
  | Load weekNum dayNum =>
      (∀ w, w ∈ weeks st → Week.week w ≠ weekNum) ∨
      ∃ i w, find_week weekNum (weeks st) = Some (i, w) ∧
        match Week._days w with
        | None => True
        | Some ds => ∀ l d, l ∈ ds → heap st !! l = Some d → Day.day d ≠ dayNum
        end
  | _ => False
  end.

(** [needle] occurs in [hay]. *)
Definition occurs (needle hay : string) : Prop :=
  ∃ pre post, hay = pre +:+ needle +:+ post.

(** Whether the character [c] occurs in [s]. *)
Fixpoint has_char (c : ascii) (s : string) : bool :=
  match s with
  | EmptyString => false
  | String a r => Ascii.eqb a c || has_char c r
  end.

(** ** A sample course *)

Module Sample.

Definition params : Params := mkParams "Learn Rust" "llama3".

Definition week1 : Week.t :=
  Week.mk 1 (Some "Ownership") (Some "theory") (Some ["moves"; "borrows"]) None false false.
Definition week2 : Week.t :=
  Week.mk 2 (Some "Traits") (Some "practice") None None false false.

Definition outline : OutlineJson :=
  mkOutlineJson (Some "Rust in two weeks") (Some "From zero to traits")
                (Some ["a terminal"]) (Some [week1; week2]) None.

(** The course view after the outline arrived. *)
Definition st0 : State := course_state outline params.

Definition day (n : Z) (t : string) : Day.t :=
  Day.mk n (Some t) None (Some "theory") (Some 45) false None None None.

Definition week2_days : WeekJson :=
  mkWeekJson (Some [day 1 "impl blocks"; day 2 "generics"; day 3 "trait objects"]).

(** Week 2 clicked and its days arrived: it is expanded. *)
Definition expand2 : list Event :=
  [Toggle 2; WeekResponse 0 (Http 200 (Json None week2_days))].
Definition st_expanded : State := default st0 (run expand2 st0).

Definition day3_details : DayDetails.t :=
  DayDetails.mk None None None None None None
                (Some (Some "Dynamic dispatch with dyn")) (Some (Some ["vtables"])) None.

(** Day 3 of week 2 clicked and its details arrived: it is loaded. *)
Definition load3 : list Event :=
  [Load 2 3; DayResponse 0 (Http 200 (Json None day3_details))].
Definition st_loaded : State := default st0 (run load3 st_expanded).

(** Details without a description, as [{}] parses. *)
Definition no_details : DayDetails.t :=
  DayDetails.mk None None None None None None None None None.

(** Day 3 of week 2 clicked and answered with [{}]. *)
Definition load3_undescribed : list Event :=
  [Load 2 3; DayResponse 0 (Http 200 (Json None no_details))].
Definition st_undescribed : State := default st0 (run load3_undescribed st_expanded).

(** A week whose focus is markup. *)
Definition week_img : Week.t :=
  Week.mk 3 (Some "Macros") (Some "<img src=x onerror=alert(1)>") None None false false.

(** Week 1 clicked twice before any response. *)
Definition st_twice : State := toggleWeekExpand 1 (toggleWeekExpand 1 st0).

(** An error answer with the backend's message. *)
Definition model_not_found {A} (data : A) : Response A :=
  Http 500 (Json (Some "model not found") data).

(** A course whose week has a number near [2^53 / 7], with day 2 of it
    arrived. *)
Definition far : Z := 1286742750677286.
Definition far_outline : OutlineJson :=
  mkOutlineJson None None None
                (Some [Week.mk far (Some "Far out") None None None false false]) None.
Definition expand_far : list Event :=
  [Toggle far; WeekResponse 0 (Http 200 (Json None (mkWeekJson (Some [day 2 "generics"]))))].
Definition st_far : State :=
  default st0 (run expand_far (course_state far_outline params)).

(** Week 1 clicked twice and the first of the two fetches answered: the
    week has its days and the second fetch is still pending. *)
Definition twice_then_answer : list Event :=
  [Toggle 1; Toggle 1;
   WeekResponse 0 (Http 200 (Json None (mkWeekJson (Some [day 1 "moves"]))))].
Definition st_answered_once : State := default st0 (run twice_then_answer st0).

(** An answer without a body of its own: the course with no property. *)
Definition no_course : OutlineJson := mkOutlineJson None None None None None.

(** What the backend's framework answers to a request it cannot validate:
    status 422 with a list of objects as [detail]. *)
Definition unprocessable : OutlineResponse :=
  OutlineHttp 422
    (OutlineObject (Some (JArray [JObject None; JObject None])) (Return no_course)).

End Sample.

(** ** More properties of states *)

(** What a week is, apart from the flags the client adds. *)
Definition week_outline (w : Week.t)
    : Z * option string * option string * option (list string) :=
  (Week.week w, Week.title w, Week.focus w, Week.concepts w).

(** A week that is marked loading has a fetch in flight. *)
Definition loading_is_pending (st : State) : Prop :=
  ∀ i w, weeks st !! i = Some w → Week._loading w = true →
         PendingWeek i ∈ inflight st.

(** The ids of day cards. *)
Definition card_ids (cards : list DayEl) : list (Z * Z) :=
  map (λ e, (el_week e, el_day e)) cards.

(** Whether a text that a template interpolates unescaped is parsed as the
    text it is, in a quoted attribute value and as the content of an
    element: it holds none of [<], [>] and the double quote. *)
Definition plain (s : option string) : bool :=
  match s with
  | Some s => negb (has_char "<" s || has_char ">" s || has_char "034" s)
  | None => true
  end.

(** The two properties the templates interpolate unescaped hold no markup,
    for every week and every day object of the course. *)
Definition plain_texts (st : State) : bool :=
  forallb (λ w, plain (Week.focus w)) (weeks st) &&
  forallb (λ d, plain (Day.task_type d)) (heap st).

(** The page shows the course: its day cards carry the ids of the days of
    the weeks that are expanded. *)
Definition shows_course (st : State) : Prop :=
  card_ids (timeline st) = card_ids (mbind (week_day_cards (heap st)) (weeks st)).

(** Whether the event is a response. *)
Definition is_response (e : Event) : bool :=
  match e with
  | WeekResponse _ _ | DayResponse _ _ => true
  | _ => false
  end.

(** How many of the events are responses. *)
Definition responses (es : list Event) : nat :=
  length (filter (λ e, is_response e = true) es).

(** How often the character [c] occurs in [s]. *)
Fixpoint count_char (c : ascii) (s : string) : nat :=
  match s with
  | EmptyString => 0
  | String a r => (if Ascii.eqb a c then 1 else 0) + count_char c r
  end.

(** Whether [s] is made of decimal digits only. *)
Fixpoint all_digits (s : string) : bool :=
  match s with
  | EmptyString => true
  | String a r => (Ascii.leb "0" a && Ascii.leb a "9") && all_digits r
  end.

(** The id of a day card, as [renderDayCard] writes it and as
    [loadDayContent] looks it up: [day-${weekNum}-${dayNum}]. *)
Definition day_id (weekNum dayNum : Z) : string :=
  "day-" +:+ pretty weekNum +:+ "-" +:+ pretty dayNum.

(** ** Escaping, one character at a time *)

(** What [escAttr] makes of one character. *)
Definition escAttr_char (a : ascii) : string :=
  if Ascii.eqb a "&" then "&amp;"
  else if Ascii.eqb a "034" then "&quot;"
  else if Ascii.eqb a "'" then "&#39;"
  else if Ascii.eqb a "<" then "&lt;"
  else if Ascii.eqb a ">" then "&gt;"
  else String a EmptyString.

Fixpoint flat_map_string (f : ascii → string) (s : string) : string :=
  match s with
  | EmptyString => EmptyString
  | String a r => f a +:+ flat_map_string f r
  end.

(** ** Months of the timeline *)

(** [Math.ceil(weeks.length / 4)] *)
Definition totalMonths (weeks : list Week.t) : nat := ((length weeks + 3) / 4)%nat.

(** [weeks.slice(m * 4, (m + 1) * 4)] *)
Definition monthWeeks (weeks : list Week.t) (m : nat) : list Week.t :=
  take 4 (drop (m * 4) weeks).

(** [monthNames[m] || `Month ${m + 1}`] *)
Definition monthLabel (m : nat) : string :=
  default ("Month " +:+ pretty (m + 1)%nat) (Markup.monthNames !! m).

(** The block of one month in [renderWeeklyTimeline]: its header and its
    week cards. *)
Definition month_block (label cards : string) : string :=
  "
        <div class=" +:+ Markup.dq +:+ "timeline-month" +:+ Markup.dq +:+ ">
            <div class=" +:+ Markup.dq +:+ "timeline-month-title" +:+ Markup.dq +:+ ">" +:+
    label +:+
    "</div>
            " +:+
    cards +:+
    "
        </div>
        ".

(** ** Class lists *)

(** [el.classList.add(c)]: a class list holds each name once. *)
Definition classList_add (c : string) (l : list string) : list string :=
  if decide (c ∈ l) then l else l ++ [c].

(** [el.classList.remove(c)] *)
Definition classList_remove (c : string) (l : list string) : list string :=
  filter (λ x, x ≠ c) l.

(** ** The status indicator *)

Module Ollama.
Record t := mk { status : option string }.
End Ollama.

(** The object answered by [/api/health]. *)
Module Health.
Record t := mk { ollama : option Ollama.t }.
End Health.

(** [#statusDot]'s classes and [#statusText]'s text. *)
Record StatusIndicator := mkStatusIndicator {
  statusDot : list string;
  statusText : string;
}.

(** The [try] block of [checkOllamaStatus]: whether the answer says that
    Ollama is connected.  The status code is not looked at. *)
Definition health_try (r : Response Health.t) : Result bool :=
  match r with
  | Rejected e => Throw e
  | Http _ body =>
      data ← json body;
      mret match Health.ollama data with
           | Some o => bool_decide (Ollama.status o = Some "connected")
           | None => false
           end
  end.

(** [checkOllamaStatus()] from its [await fetch] on. *)
Definition checkOllamaStatus (r : Response Health.t) (ui : StatusIndicator)
    : StatusIndicator :=
  match health_try r with
  | Return true =>
      mkStatusIndicator
        (classList_remove "disconnected" (classList_add "connected" (statusDot ui)))
        "Ollama Connected"
  | Return false =>
      mkStatusIndicator
        (classList_remove "connected" (classList_add "disconnected" (statusDot ui)))
        "Ollama Disconnected"
  | Throw _ =>
      mkStatusIndicator
        (classList_remove "connected" (classList_add "disconnected" (statusDot ui)))
        "Backend Offline"
  end.

(** ** The model list *)

Module ModelInfo.
Record t := mk { name : string; size : option Z }.
End ModelInfo.

(** The object answered by [/api/models]. *)
Record ModelsJson := mkModelsJson { models : option (list ModelInfo.t) }.

(** An [<option>] of [#model]. *)
Record SelectOption := mkSelectOption { value : string; textContent : string }.

(** [#model]'s options and [#modelHint]'s text. *)
Record ModelPicker := mkModelPicker {
  options : list SelectOption;
  modelHint : string;
}.

Section models.

(** [(size / 1e9).toFixed(1)], the size in gigabytes with one decimal. *)
Variable toFixed1 : Z → string.

(** The text of a model's option. *)
Definition model_text (m : ModelInfo.t) : string :=
  let sizeMB :=
    match ModelInfo.size m with
    | Some 0 | None => ""
    | Some n => toFixed1 n +:+ "GB"
    end in
  ModelInfo.name m +:+
  match sizeMB with
  | EmptyString => ""
  | _ => " (" +:+ sizeMB +:+ ")"
  end.

(** The [try] block of [loadOllamaModels] up to the list of models. *)
Definition models_try (r : Response ModelsJson) : Result (list ModelInfo.t) :=
  match r with
  | Rejected e => Throw e
  | Http status body =>
      if negb (ok status) then Throw "Failed to load models"
      else data ← json body; mret (default [] (models data))
  end.

(** [loadOllamaModels()] from its [await fetch] on: it replaces the options
    and the hint. *)
Definition loadOllamaModels (r : Response ModelsJson) : ModelPicker :=
  match models_try r with
  | Return [] =>
      mkModelPicker [mkSelectOption "" "No models found"]
                    "Run: ollama pull deepseek-r1:1.5b"
  | Return ms =>
      mkModelPicker
        (map (λ m, mkSelectOption (ModelInfo.name m) (model_text m)) ms)
        (pretty (length ms) +:+ " model" +:+
         (if (1 <? length ms)%nat then "s" else "") +:+ " available locally")
  | Throw _ =>
      mkModelPicker [mkSelectOption "" "⚠ Cannot connect to backend"]
                    "Make sure the backend server is running on port 8000"
  end.

End models.

(** ** Submitting the form *)

(** The code points [String.prototype.trim] removes, in UTF-8: ECMAScript's
    white space (tab, vertical tab, form feed, the space separators, the
    byte order mark) and line terminators. *)
Definition white_space : list (list ascii) :=
  [ ["009"]; ["010"]; ["011"]; ["012"]; ["013"]; [" "];
    ["194"; "160"];
    ["225"; "154"; "128"];
    ["226"; "128"; "128"]; ["226"; "128"; "129"]; ["226"; "128"; "130"];
    ["226"; "128"; "131"]; ["226"; "128"; "132"]; ["226"; "128"; "133"];
    ["226"; "128"; "134"]; ["226"; "128"; "135"]; ["226"; "128"; "136"];
    ["226"; "128"; "137"]; ["226"; "128"; "138"];
    ["226"; "128"; "168"]; ["226"; "128"; "169"]; ["226"; "128"; "175"];
    ["226"; "129"; "159"];
    ["227"; "128"; "128"];
    ["239"; "187"; "191"] ]%char.

(** [s] without its prefix [p], when it starts with it. *)
Fixpoint strip_prefix (p s : list ascii) : option (list ascii) :=
  match p, s with
  | [], _ => Some s
  | a :: p, b :: s => if Ascii.eqb a b then strip_prefix p s else None
  | _ :: _, [] => None
  end.

(** [s] without the first of [ps] it starts with. *)
Fixpoint strip_any (ps : list (list ascii)) (s : list ascii) : option (list ascii) :=
  match ps with
  | [] => None
  | p :: ps =>
      match strip_prefix p s with
      | Some r => Some r
      | None => strip_any ps s
      end
  end.

(** Strips as long as one of [ps] is in front; [fuel] bounds the number of
    rounds, and the length of [s] is enough. *)
Fixpoint strip_all (fuel : nat) (ps : list (list ascii)) (s : list ascii) : list ascii :=
  match fuel with
  | O => s
  | S fuel =>
      match strip_any ps s with
      | Some r => strip_all fuel ps r
      | None => s
      end
  end.

Definition trimStart (s : list ascii) : list ascii :=
  strip_all (length s) white_space s.

Definition trimEnd (s : list ascii) : list ascii :=
  reverse (strip_all (length s) (map reverse white_space) (reverse s)).

(** [s.trim()] *)
Definition trim (s : string) : string :=
  string_of_list_ascii (trimEnd (trimStart (list_ascii_of_string s))).

(** A visible character of ASCII: from [!] to [~]. *)
Definition visible_ascii (c : ascii) : Prop := (33 ≤ nat_of_ascii c ≤ 126)%nat.

(** [s] has white space neither in front nor at its end. *)
Definition trimmed (s : string) : Prop :=
  strip_any white_space (list_ascii_of_string s) = None ∧
  strip_any (map reverse white_space) (reverse (list_ascii_of_string s)) = None.

(** The body of the request to [/api/generate/outline]. *)
Record OutlineRequest := mkOutlineRequest { or_goal : string; or_model : string }.

(** What a submission does before its [await]: a toast and nothing else, or
    the loading page and the request. *)
Inductive Submission :=
| Blocked (t : Toast)
| Submitted (page : Page) (request : OutlineRequest).

(** [handleGenerate(e)] up to its [await fetch], for the values of [#goal]
    and [#model]. *)
Definition handleGenerate (goalValue modelValue : string) : Submission :=
  let goal := trim goalValue in
  match goal, modelValue with
  | EmptyString, _ => Blocked (mkToast "Please enter a learning goal" true)
  | _, EmptyString => Blocked (mkToast "Please select an Ollama model" true)
  | _, _ => Submitted loading (mkOutlineRequest goal modelValue)
  end.

(** [currentCourse.requestParams = { goal, model }] *)
Definition request_params (req : OutlineRequest) : Params :=
  mkParams (or_goal req) (or_model req).

(** ** The loading steps *)

(** A step of the loading page: its classes and its text. *)
Record StepEl := mkStepEl { className : list string; stepText : string }.

(** One run of [animateLoadingSteps]: the four steps, [#loadingStatus], the
    counter [i] and whether the interval is still set. *)
Record Loader := mkLoader {
  stepEls : list StepEl;
  loadingStatus : string;
  counter : nat;
  interval : bool;
}.

Definition messages : list string :=
  [ "Analyzing your learning goal...";
    "Planning 6-month curriculum...";
    "Organizing weekly modules...";
    "Finalizing the roadmap..." ].

(** [animateLoadingSteps()]: every step is reset, with the message at [i],
    which is 0 throughout the loop, and the interval is set. *)
Definition animateLoadingSteps (status : string) : Loader :=
  let i := 0%nat in
  mkLoader (map (λ _, mkStepEl ["step"] (default "" (messages !! i))) (seq 0 4))
           status i true.

(** The interval's callback. *)
Definition tick (ld : Loader) : Loader :=
  let i := counter ld in
  if (4 <=? i)%nat then
    mkLoader (stepEls ld) (loadingStatus ld) i false
  else
    let els :=
      if (0 <? i)%nat then
        alter (λ e, mkStepEl (classList_add "done" (classList_remove "active" (className e)))
                             (stepText e)) (i - 1)%nat (stepEls ld)
      else stepEls ld in
    let els :=
      alter (λ e, mkStepEl (classList_add "active" (className e)) (stepText e)) i els in
    mkLoader els (default "" (messages !! i)) (S i) (interval ld).

(** The callback runs as long as the interval is set. *)
Definition fire (ld : Loader) : Loader := if interval ld then tick ld else ld.

(** ** The toast element *)

(** [#toast]: its icon, its message, whether it has the class [visible],
    and how many of [showToast]'s timeouts are still to fire. *)
Record ToastEl := mkToastEl {
  icon : string;
  toastMessage : string;
  visible : bool;
  timeouts : nat;
}.

Module Shell.

(** [showToast(message, isError)] on the element. *)
Definition showToast (t : Toast) (el : ToastEl) : ToastEl :=
  mkToastEl (if isError t then "⚠️" else "✅") (message t) true (S (timeouts el)).

(** A timeout fires, the oldest first: all wait the same 4000 ms. *)
Definition timeout (el : ToastEl) : ToastEl :=
  match timeouts el with
  | O => el
  | S n => mkToastEl (icon el) (toastMessage el) false n
  end.

Inductive ToastEvent := Show (t : Toast) | Timeout.

Definition toast_step (e : ToastEvent) (el : ToastEl) : ToastEl :=
  match e with
  | Show t => showToast t el
  | Timeout => timeout el
  end.

End Shell.

(** ** More samples *)

Module Samples.

Definition tags : list ModelInfo.t :=
  [ModelInfo.mk "llama3" (Some 4700000000); ModelInfo.mk "phi3" None].

Definition tags_answer : Response ModelsJson :=
  Http 200 (Json None (mkModelsJson (Some tags))).

(** A model the backend lists without a name. *)
Definition unnamed : ModelInfo.t := ModelInfo.mk "" (Some 4700000000).

(** A resource whose every text is markup. *)
Definition hostile : Resource.t :=
  Resource.mk (Some "web") (Some "x><script>") (Some "</div><script>")
              (Some "<b>") None.

End Samples.


(** ** The finds *)

Lemma find_week_Some weekNum ws i w :
  find_week weekNum ws = Some (i, w) →
  ws !! i = Some w ∧ Week.week w = weekNum.
Proof.
  unfold find_week. intros H. apply list_find_Some in H. tauto.
Qed.

Lemma find_week_None weekNum ws :
  find_week weekNum ws = None ↔ ∀ w, w ∈ ws → Week.week w ≠ weekNum.
Proof.
  unfold find_week. rewrite list_find_None, Forall_forall. reflexivity.
Qed.

Lemma find_day_None h dayNum ds :
  find_day h dayNum ds = None ↔
  ∀ l d, l ∈ ds → h !! l = Some d → Day.day d ≠ dayNum.
Proof.
  induction ds as [|l ds IH]; simpl.
  - split; [intros _ l d Hl | reflexivity]. inversion Hl.
  - destruct (h !! l) as [d|] eqn:Hd.
    + destruct (decide (Day.day d = dayNum)) as [Heq|Hne].
      * split; [discriminate|]. intros H. destruct (H l d); auto. left.
      * rewrite IH. split.
        -- intros H l' d' Hl' Hd'. apply elem_of_cons in Hl' as [->|Hl'].
           ++ congruence.
           ++ eauto.
        -- intros H l' d' Hl'. apply H. right. exact Hl'.
    + rewrite IH. split.
      * intros H l' d' Hl' Hd'. apply elem_of_cons in Hl' as [->|Hl'].
        -- congruence.
        -- eauto.
      * intros H l' d' Hl'. apply H. right. exact Hl'.
Qed.

Lemma find_day_Some h dayNum ds l d :
  find_day h dayNum ds = Some (l, d) →
  l ∈ ds ∧ h !! l = Some d ∧ Day.day d = dayNum.
Proof.
  induction ds as [|l' ds IH]; simpl; [discriminate|].
  destruct (h !! l') as [d'|] eqn:Hd.
  - destruct (decide (Day.day d' = dayNum)) as [Heq|Hne].
    + intros [= -> ->]. split; [left | auto].
    + intros H. destruct (IH H) as (? & ? & ?). split; [right|]; auto.
  - intros H. destruct (IH H) as (? & ? & ?). split; [right|]; auto.
Qed.

(** ** Clicks that do nothing *)

(** C10: a toggle with a week number that no week of the course has, and a
    day load whose week number no week has, whose week has no [_days], or
    whose day number no day of that week's [_days] has, leave the whole
    state as it is; the list of calls is part of the state, so no request
    goes out. *)
Theorem unknown_target_is_noop e st :
  designates_nothing e st → step e st = Some st.
Proof.
  destruct e as [weekNum|weekNum dayNum| |]; simpl; try tauto.
  - intros H. apply find_week_None in H.
    unfold toggleWeekExpand. rewrite H. reflexivity.
  - intros [H|(i & w & Hw & H)]; unfold loadDayContent.
    + apply find_week_None in H. rewrite H. reflexivity.
    + rewrite Hw. destruct (Week._days w) as [ds|]; [|reflexivity].
      apply find_day_None in H. rewrite H. reflexivity.
Qed.

Lemma unknown_target_is_noop_witness :
  step (Toggle 9) Sample.st_loaded = Some Sample.st_loaded ∧
  step (Load 9 1) Sample.st_loaded = Some Sample.st_loaded ∧
  step (Load 1 1) Sample.st_loaded = Some Sample.st_loaded ∧
  step (Load 2 4) Sample.st_loaded = Some Sample.st_loaded.
Proof.
  split; [|split; [|split]]; apply unknown_target_is_noop.
  - intros w Hw. vm_compute in Hw.
    repeat (apply elem_of_cons in Hw as [->|Hw]; [discriminate|]).
    inversion Hw.
  - left. intros w Hw. vm_compute in Hw.
    repeat (apply elem_of_cons in Hw as [->|Hw]; [discriminate|]).
    inversion Hw.
  - right. exists 0%nat, Sample.week1. split; [reflexivity | exact I].
  - right. eexists 1%nat, _. split; [reflexivity|].
    intros l d Hl. vm_compute in Hl.
    repeat (apply elem_of_cons in Hl as [->|Hl]; [intros [= <-]; discriminate|]).
    inversion Hl.
Defined.

(** C7: loading a day that is loaded changes nothing: the state after the
    click is the state before it, with the same calls and every field of
    every day. *)
Theorem load_loaded_is_noop st weekNum dayNum i week ds l day :
  find_week weekNum (weeks st) = Some (i, week) →
  Week._days week = Some ds →
  find_day (heap st) dayNum ds = Some (l, day) →
  Day._loaded day = true →
  step (Load weekNum dayNum) st = Some st.
Proof.
  intros Hw Hds Hd Hl. simpl. unfold loadDayContent.
  rewrite Hw, Hds, Hd, Hl. reflexivity.
Qed.

Lemma load_loaded_is_noop_witness :
  step (Load 2 3) Sample.st_loaded = Some Sample.st_loaded.
Proof.
  eapply (load_loaded_is_noop Sample.st_loaded 2 3); reflexivity.
Defined.

(** ** The day request *)

Lemma to_double_exact z : Z.abs z ≤ 2 ^ 53 → to_double z = Some z.
Proof.
  intros H. unfold to_double.
  destruct (Z.leb_spec (Z.abs z) (2 ^ 53)) as [_|Hlt]; [reflexivity | lia].
Qed.

(** Below [2^53] the three operations are exact. *)
Lemma globalDay_exact weekNum dayNum :
  Z.abs (weekNum - 1) * 7 + Z.abs dayNum ≤ 2 ^ 53 →
  globalDay weekNum dayNum = Some ((weekNum - 1) * 7 + dayNum).
Proof.
  intros H. unfold globalDay.
  rewrite (to_double_exact (weekNum - 1)) by lia. simpl.
  rewrite (to_double_exact ((weekNum - 1) * 7)) by lia. simpl.
  apply to_double_exact. lia.
Qed.

(** C9, amended: the request a day load sends carries, as [day_number],
    what JavaScript computes for [(weekNum - 1) * 7 + dayNum]; as long as
    [|weekNum - 1| * 7 + |dayNum|] is at most [2^53] that is the integer
    [(weekNum - 1) * 7 + dayNum] itself. *)
Theorem day_number_is_global st weekNum dayNum r :
  Z.abs (weekNum - 1) * 7 + Z.abs dayNum ≤ 2 ^ 53 →
  calls (loadDayContent weekNum dayNum st) = calls st ++ [r] →
  ∃ body, r = PostDay body ∧
    day_number body = globalDay weekNum dayNum ∧
    day_number body = Some ((weekNum - 1) * 7 + dayNum).
Proof.
  intros Hbound. unfold loadDayContent.
  assert (Hsame : calls st = calls st ++ [r] → False).
  { intros H. apply (f_equal length) in H. rewrite length_app in H.
    simpl in H. lia. }
  destruct (find_week weekNum (weeks st)) as [[i week]|]; [|tauto].
  destruct (Week._days week) as [ds|]; [|tauto].
  destruct (find_day (heap st) dayNum ds) as [[l day]|]; [|tauto].
  destruct (Day._loaded day); [tauto|].
  destruct (query_day weekNum dayNum st) as [[dayEl e]|]; [|tauto].
  simpl. intros H. apply app_inv_head in H. injection H as <-.
  eexists. split; [reflexivity|]. split; [reflexivity|].
  simpl. apply globalDay_exact. exact Hbound.
Qed.

Lemma day_number_is_global_witness :
  ∃ body,
    calls (loadDayContent 2 3 Sample.st_expanded) =
      calls Sample.st_expanded ++ [PostDay body] ∧
    day_number body = Some 10.
Proof.
  destruct (day_number_is_global Sample.st_expanded 2 3
              (PostDay (mkDayRequest "Learn Rust" (Some "trait objects") (Some 10) 45
                                     "theory" "llama3")))
    as (body & Hr & _ & Hn).
  - vm_compute. discriminate.
  - reflexivity.
  - exists body. split.
    + rewrite <- Hr. reflexivity.
    + exact Hn.
Defined.

(** C9, as claimed, fails: day 2 of week 1286742750677286 is clicked.  The
    week number and [(weekNum - 1) * 7] are below and above [2^53]: the
    product 9007199254740995 is no double and becomes 9007199254740996, so
    that the request carries 9007199254740998 where the claim has
    9007199254740997. *)
Lemma day_number_beyond_doubles :
  ∃ body,
    calls (loadDayContent Sample.far 2 Sample.st_far) =
      calls Sample.st_far ++ [PostDay body] ∧
    (Sample.far - 1) * 7 + 2 = 9007199254740997 ∧
    day_number body = Some 9007199254740998 ∧
    day_number body ≠ Some ((Sample.far - 1) * 7 + 2).
Proof.
  eexists. split; [vm_compute; reflexivity|].
  split; [reflexivity|]. split; [vm_compute; reflexivity|].
  vm_compute. discriminate.
Qed.

(** ** Updating a week in place *)

Lemma alter_lookup {A} (f : A → A) (l : list A) i x :
  l !! i = Some x → alter f i l = <[i := f x]> l.
Proof.
  revert i. induction l as [|y l IH]; intros [|i]; simpl; try discriminate.
  - intros [= ->]. reflexivity.
  - intros H. f_equal. apply IH. exact H.
Qed.

Lemma alter_fixed {A} (f : A → A) (l : list A) i x :
  l !! i = Some x → f x = x → alter f i l = l.
Proof.
  intros Hx Hf. rewrite (alter_lookup f l i x Hx), Hf.
  apply list_insert_id. exact Hx.
Qed.

(** Changing a flag of the week found does not change which week is found. *)
Lemma find_week_alter weekNum (f : Week.t → Week.t) ws i w :
  find_week weekNum ws = Some (i, w) →
  Week.week (f w) = Week.week w →
  find_week weekNum (alter f i ws) = Some (i, f w).
Proof.
  unfold find_week. revert i.
  induction ws as [|x ws IH]; intros i; simpl; [discriminate|].
  destruct (decide (Week.week x = weekNum)) as [Hx|Hx].
  - intros [= <- <-] Hf. simpl.
    destruct (decide (Week.week (f x) = weekNum)); [reflexivity | congruence].
  - destruct (list_find _ ws) as [[j y]|] eqn:Hfind; simpl; [|discriminate].
    intros [= <- <-] Hf. simpl.
    destruct (decide (Week.week x = weekNum)); [contradiction|].
    change (list_alter f j ws) with (alter f j ws).
    rewrite (IH j eq_refl Hf). reflexivity.
Qed.

(** ** Collapse and expand *)

(** C6: toggling a week that is expanded collapses it, keeping its days, and
    toggling it again expands it: the state is the one the two toggles
    started from, rendered again, and neither toggle sends a request. *)
Theorem collapse_expand_roundtrip st weekNum i week ds :
  find_week weekNum (weeks st) = Some (i, week) →
  Week._expanded week = true →
  Week._days week = Some ds →
  let st1 := toggleWeekExpand weekNum st in
  let st2 := toggleWeekExpand weekNum st1 in
  weeks st1 = <[i := Week.set_expanded false week]> (weeks st) ∧
  calls st1 = calls st ∧ inflight st1 = inflight st ∧
  st2 = renderWeeklyTimeline st ∧
  weeks st2 = weeks st ∧ heap st2 = heap st ∧
  calls st2 = calls st ∧ inflight st2 = inflight st.
Proof.
  intros Hw He Hd st1 st2.
  destruct (find_week_Some _ _ _ _ Hw) as [Hi _].
  assert (H1 : st1 = renderWeeklyTimeline (update_week i (Week.set_expanded false) st)).
  { unfold st1, toggleWeekExpand. rewrite Hw, He. reflexivity. }
  assert (Hw1 : find_week weekNum (weeks st1) =
                Some (i, Week.set_expanded false week)).
  { rewrite H1. simpl. apply find_week_alter; [exact Hw | reflexivity]. }
  assert (H2 : st2 = renderWeeklyTimeline (update_week i (Week.set_expanded true) st1)).
  { unfold st2, toggleWeekExpand. rewrite Hw1. simpl. rewrite Hd. reflexivity. }
  assert (Hws : weeks st2 = weeks st).
  { rewrite H2, H1. simpl. rewrite list_alter_alter_eq.
    apply (alter_fixed _ _ _ week Hi).
    destruct week; simpl in *; subst; reflexivity. }
  assert (Hst : st2 = renderWeeklyTimeline st).
  { rewrite H2 in Hws |- *. rewrite H1 in Hws |- *.
    unfold renderWeeklyTimeline, set_timeline, update_week, set_weeks in *.
    simpl in *. rewrite Hws. reflexivity. }
  split; [|split; [|split; [|split]]].
  - rewrite H1. simpl. apply alter_lookup. exact Hi.
  - rewrite H1. reflexivity.
  - rewrite H1. reflexivity.
  - exact Hst.
  - rewrite Hst. repeat split.
Qed.

Lemma collapse_expand_roundtrip_witness :
  let st1 := toggleWeekExpand 2 Sample.st_loaded in
  let st2 := toggleWeekExpand 2 st1 in
  (Week._expanded <$> weeks st1 !! 1%nat) = Some false ∧
  calls st1 = calls Sample.st_loaded ∧
  st2 = Sample.st_loaded.
Proof.
  destruct (collapse_expand_roundtrip Sample.st_loaded 2 1
              (Week.set_expanded true (Week.set_days [0; 1; 2]%nat Sample.week2))
              [0; 1; 2]%nat eq_refl eq_refl eq_refl)
    as (Hws & Hc & _ & Hst & _).
  split; [|split].
  - rewrite Hws. reflexivity.
  - exact Hc.
  - rewrite Hst. reflexivity.
Defined.

(** ** Toggling a week that has no days *)

(** The week found is collapsed without data: the toggle marks it loading
    and sends the request, whatever [_loading] was. *)
Lemma toggle_without_days st weekNum i week :
  find_week weekNum (weeks st) = Some (i, week) →
  Week._expanded week = false →
  Week._days week = None →
  toggleWeekExpand weekNum st =
    fetch (week_request (requestParams st) week) (PendingWeek i)
          (renderWeeklyTimeline (update_week i (Week.set_loading true) st)).
Proof.
  intros Hw He Hd. unfold toggleWeekExpand. rewrite Hw, He, Hd. reflexivity.
Qed.

Lemma filter_replicate_same (p : Pending) n :
  filter (λ q, q = p) (replicate n p) = replicate n p.
Proof.
  induction n as [|n IH]; simpl; [reflexivity|].
  rewrite filter_cons_True by reflexivity. rewrite IH. reflexivity.
Qed.

(** As long as the week found has no [_days] and is not expanded, every
    toggle sends the request again: [n] toggles put [n] more fetches for
    that week in flight. *)
Lemma toggles_without_days n st weekNum i week :
  find_week weekNum (weeks st) = Some (i, week) →
  Week._expanded week = false →
  Week._days week = None →
  ∃ st', run (replicate n (Toggle weekNum)) st = Some st' ∧
    calls st' = calls st ++ replicate n (week_request (requestParams st) week) ∧
    inflight st' = inflight st ++ replicate n (PendingWeek i) ∧
    week_fetches_in_flight i st' = (week_fetches_in_flight i st + n)%nat.
Proof.
  intros Hw He Hd.
  assert (Hrun : ∃ st', run (replicate n (Toggle weekNum)) st = Some st' ∧
    calls st' = calls st ++ replicate n (week_request (requestParams st) week) ∧
    inflight st' = inflight st ++ replicate n (PendingWeek i)).
  { revert st week Hw He Hd. induction n as [|n IH]; intros st week Hw He Hd.
    - exists st. simpl. rewrite !app_nil_r. auto.
    - simpl. rewrite (toggle_without_days st weekNum i week Hw He Hd).
      set (st1 := fetch _ _ _).
      destruct (IH st1 (Week.set_loading true week)) as (st' & Hr & Hc & Hp).
      + unfold st1. simpl. apply find_week_alter; [exact Hw | reflexivity].
      + exact He.
      + exact Hd.
      + exists st'. split; [exact Hr|]. rewrite Hc, Hp. unfold st1. simpl.
        rewrite <- !app_assoc. split; reflexivity. }
  destruct Hrun as (st' & Hr & Hc & Hp).
  exists st'. repeat (split; [assumption|]).
  unfold week_fetches_in_flight. rewrite Hp, filter_app, length_app.
  rewrite filter_replicate_same, length_replicate. reflexivity.
Qed.

(** A toggle that finds no week, an expanded week or a week that has its
    days sends nothing. *)
Lemma toggle_with_days_or_unknown st weekNum :
  (∀ i week, find_week weekNum (weeks st) = Some (i, week) →
     Week._expanded week = true ∨ Week._days week ≠ None) →
  calls (toggleWeekExpand weekNum st) = calls st ∧
  inflight (toggleWeekExpand weekNum st) = inflight st.
Proof.
  intros H. unfold toggleWeekExpand.
  destruct (find_week weekNum (weeks st)) as [[i week]|]; [|split; reflexivity].
  destruct (H i week eq_refl) as [He|Hd].
  - rewrite He. split; reflexivity.
  - destruct (Week._expanded week); [split; reflexivity|].
    destruct (Week._days week); [split; reflexivity | contradiction].
Qed.

(** C1, amended: a toggle sends a week request exactly when the week it
    finds is not expanded and has no [_days]; neither [_loading] nor the
    fetches in flight are looked at.  Such a toggle sends the request of
    the week and suspends one more continuation for it, and [n] such
    toggles in a row send [n] requests and put [n] more fetches for the
    week in flight.  Every other toggle leaves the requests and the
    fetches in flight as they are. *)
Theorem toggle_fetches_exactly_when st weekNum :
  let st' := toggleWeekExpand weekNum st in
  let without_days :=
    ∃ i week, find_week weekNum (weeks st) = Some (i, week) ∧
              Week._expanded week = false ∧ Week._days week = None in
  (calls st' ≠ calls st ↔ without_days) ∧
  (∀ i week,
     find_week weekNum (weeks st) = Some (i, week) →
     Week._expanded week = false →
     Week._days week = None →
     calls st' = calls st ++ [week_request (requestParams st) week] ∧
     inflight st' = inflight st ++ [PendingWeek i] ∧
     ∀ n, ∃ st'', run (replicate n (Toggle weekNum)) st = Some st'' ∧
       calls st'' = calls st ++ replicate n (week_request (requestParams st) week) ∧
       inflight st'' = inflight st ++ replicate n (PendingWeek i) ∧
       week_fetches_in_flight i st'' = (week_fetches_in_flight i st + n)%nat) ∧
  (¬ without_days → calls st' = calls st ∧ inflight st' = inflight st).
Proof.
  intros st' without_days.
  assert (Hyes : ∀ i week,
     find_week weekNum (weeks st) = Some (i, week) →
     Week._expanded week = false →
     Week._days week = None →
     calls st' = calls st ++ [week_request (requestParams st) week] ∧
     inflight st' = inflight st ++ [PendingWeek i]).
  { intros i week Hw He Hd. unfold st'.
    rewrite (toggle_without_days st weekNum i week Hw He Hd).
    split; reflexivity. }
  assert (Hno : ¬ without_days → calls st' = calls st ∧ inflight st' = inflight st).
  { intros Hn. apply toggle_with_days_or_unknown. intros i week Hw.
    destruct (Week._expanded week) eqn:He; [left; reflexivity|]. right.
    intros Hd. apply Hn. exists i, week. auto. }
  split; [split|split].
  - intros Hc.
    destruct (find_week weekNum (weeks st)) as [[i week]|] eqn:Hw.
    + destruct (Week._expanded week) eqn:He.
      * exfalso. apply Hc, Hno. intros (j & w & [= <- <-] & He' & _). congruence.
      * destruct (Week._days week) as [ds|] eqn:Hd.
        -- exfalso. apply Hc, Hno. intros (j & w & [= <- <-] & _ & Hd'). congruence.
        -- exists i, week. auto.
    + exfalso. apply Hc, Hno. intros (j & w & [=] & _).
  - intros (i & week & Hw & He & Hd) Hc.
    destruct (Hyes i week Hw He Hd) as [Hc' _]. rewrite Hc' in Hc.
    apply (f_equal length) in Hc. rewrite length_app in Hc. simpl in Hc. lia.
  - intros i week Hw He Hd.
    destruct (Hyes i week Hw He Hd) as [Hc Hp].
    split; [exact Hc|]. split; [exact Hp|].
    intros n. apply toggles_without_days; assumption.
  - exact Hno.
Qed.

Lemma toggle_fetches_exactly_when_witness :
  (∃ st', run [Toggle 1; Toggle 1; Toggle 1] Sample.st0 = Some st' ∧
     length (calls st') = 3%nat ∧ week_fetches_in_flight 0 st' = 3%nat) ∧
  week_fetches_in_flight 0 Sample.st_answered_once = 1%nat ∧
  calls (toggleWeekExpand 1 Sample.st_answered_once) = calls Sample.st_answered_once.
Proof.
  split.
  - destruct (toggle_fetches_exactly_when Sample.st0 1) as (_ & Hyes & _).
    destruct (Hyes 0%nat Sample.week1 eq_refl eq_refl eq_refl) as (_ & _ & Hn).
    destruct (Hn 3%nat) as (st' & Hr & Hc & _ & Hf).
    exists st'. split; [exact Hr|]. split.
    + rewrite Hc. reflexivity.
    + rewrite Hf. reflexivity.
  - split; [reflexivity|].
    destruct (toggle_fetches_exactly_when Sample.st_answered_once 1) as (_ & _ & Hno).
    apply Hno. intros (i & week & Hw & He & Hd).
    vm_compute in Hw. injection Hw as <- <-. discriminate He.
Defined.

(** C1, as claimed, fails: week 1 of the sample course is clicked, and
    clicked again while it is loading and its fetch is pending; the second
    click sends a second request and two fetches for the week are in
    flight. *)
Lemma second_toggle_fetches_again :
  let st1 := toggleWeekExpand 1 Sample.st0 in
  let st2 := toggleWeekExpand 1 st1 in
  (Week._loading <$> weeks st1 !! 0%nat) = Some true ∧
  week_fetches_in_flight 0 st1 = 1%nat ∧
  length (calls st1) = 1%nat ∧
  length (calls st2) = 2%nat ∧
  reachable st2 ∧
  ¬ (week_fetches_in_flight 0 st2 ≤ 1)%nat.
Proof.
  repeat (split; [reflexivity|]). split.
  - apply (reachable_step _ (toggleWeekExpand 1 Sample.st0) (Toggle 1));
      [|exact I|reflexivity].
    apply (reachable_step _ Sample.st0 (Toggle 1)); [|exact I|reflexivity].
    apply (reachable_outline _ Sample.outline Sample.params).
    repeat constructor.
  - vm_compute. lia.
Qed.

(** ** A week fetch that fails *)

(** The ways the week fetch fails: the backend is unreachable, answers with
    an error status, or answers with something that is not JSON. *)
Lemma week_try_Throw r e :
  week_try r = Throw e ↔
  r = Rejected e ∨
  (∃ status body, r = Http status body ∧ ok status = false ∧
                  e = "Failed to load week details") ∨
  (∃ status, r = Http status (Malformed e) ∧ ok status = true).
Proof.
  split.
  - destruct r as [m|status body]; simpl.
    + intros [= ->]. auto.
    + destruct (ok status) eqn:Hok; simpl.
      * destruct body; simpl; [discriminate|]. intros [= ->]. right; right; eauto.
      * intros [= <-]. right; left; eauto.
  - intros [->|[(status & body & -> & Hok & ->)|(status & -> & Hok)]]; simpl;
      [reflexivity| |]; rewrite Hok; reflexivity.
Qed.



(** ** Invariants *)

Section invariants.
Variable allowed : Event → Prop.

Lemma outline_weeks_collapsed ws :
  Forall outline_week ws → Forall expanded_has_days ws.
Proof.
  intros Hws. eapply Forall_impl; [exact Hws|].
  intros w (_ & He & _) H. congruence.
Qed.

Lemma toggle_keeps_expanded_has_days weekNum st :
  Forall expanded_has_days (weeks st) →
  Forall expanded_has_days (weeks (toggleWeekExpand weekNum st)).
Proof.
  intros Hinv. unfold toggleWeekExpand.
  destruct (find_week weekNum (weeks st)) as [[i week]|] eqn:Hw; [|exact Hinv].
  destruct (find_week_Some _ _ _ _ Hw) as [Hi _].
  destruct (Week._expanded week) eqn:He; [|destruct (Week._days week) eqn:Hd];
    simpl; apply Forall_alter; try exact Hinv.
  - intros x _ _ H. discriminate H.
  - intros x Hx _ _. simpl. congruence.
  - intros x _ Hx. exact Hx.
Qed.

Lemma week_resume_keeps_expanded_has_days i r st :
  Forall expanded_has_days (weeks st) →
  Forall expanded_has_days (weeks (toggleWeekExpand_resume i r st)).
Proof.
  intros Hinv. unfold toggleWeekExpand_resume.
  destruct (week_try r) as [ds|e]; simpl.
  - rewrite !list_alter_alter_eq. apply Forall_alter; [exact Hinv|].
    intros x _ _ _. discriminate.
  - apply Forall_alter; [exact Hinv|]. intros x _ Hx. exact Hx.
Qed.

Lemma load_keeps_weeks weekNum dayNum st :
  weeks (loadDayContent weekNum dayNum st) = weeks st.
Proof.
  unfold loadDayContent.
  destruct (find_week weekNum (weeks st)) as [[i week]|]; [|reflexivity].
  destruct (Week._days week) as [ds|]; [|reflexivity].
  destruct (find_day (heap st) dayNum ds) as [[l day]|]; [|reflexivity].
  destruct (Day._loaded day); [reflexivity|].
  destruct (query_day weekNum dayNum st) as [[dayEl e]|]; reflexivity.
Qed.

Lemma day_resume_keeps_weeks l r st :
  weeks (loadDayContent_resume l r st) = weeks st.
Proof.
  unfold loadDayContent_resume. destruct (day_try r); reflexivity.
Qed.

(** Every operation keeps the expanded weeks' days. *)
Lemma step_keeps_expanded_has_days e st st' :
  step e st = Some st' →
  Forall expanded_has_days (weeks st) →
  Forall expanded_has_days (weeks st').
Proof.
  destruct e as [weekNum|weekNum dayNum|k r|k r]; simpl.
  - intros [= <-]. apply toggle_keeps_expanded_has_days.
  - intros [= <-]. rewrite load_keeps_weeks. auto.
  - destruct (inflight st !! k) as [[i|l]|]; try discriminate.
    intros [= <-] Hinv. apply week_resume_keeps_expanded_has_days. exact Hinv.
  - destruct (inflight st !! k) as [[i|l]|]; try discriminate.
    intros [= <-] Hinv. rewrite day_resume_keeps_weeks. exact Hinv.
Qed.

Lemma reachable_expanded_has_days st :
  reachable_by allowed st → Forall expanded_has_days (weeks st).
Proof.
  induction 1 as [course params Hws|st e st' _ IH _ Hstep].
  - apply outline_weeks_collapsed. exact Hws.
  - eapply step_keeps_expanded_has_days; eauto.
Qed.

(** The day objects, under a backend that describes its days. *)

Lemma week_try_Return r ds :
  week_try r = Return ds →
  ∃ status detail data,
    r = Http status (Json detail data) ∧ ds = default [] (days data).
Proof.
  destruct r as [m|status [detail data|m]]; simpl; try discriminate;
    destruct (ok status); simpl; try discriminate.
  intros [= <-]. eauto.
Qed.

Lemma day_try_Return r details :
  day_try r = Return details →
  ∃ status detail, r = Http status (Json detail details).
Proof.
  destruct r as [m|status [detail data|m]]; simpl; try discriminate;
    destruct (ok status); simpl; try discriminate.
  intros [= <-]. eauto.
Qed.

Lemma toggle_keeps_heap weekNum st :
  heap (toggleWeekExpand weekNum st) = heap st.
Proof.
  unfold toggleWeekExpand.
  destruct (find_week weekNum (weeks st)) as [[i week]|]; [|reflexivity].
  destruct (Week._expanded week); [reflexivity|].
  destruct (Week._days week); reflexivity.
Qed.

Lemma load_keeps_heap weekNum dayNum st :
  heap (loadDayContent weekNum dayNum st) = heap st.
Proof.
  unfold loadDayContent.
  destruct (find_week weekNum (weeks st)) as [[i week]|]; [|reflexivity].
  destruct (Week._days week) as [ds|]; [|reflexivity].
  destruct (find_day (heap st) dayNum ds) as [[l day]|]; [|reflexivity].
  destruct (Day._loaded day); [reflexivity|].
  destruct (query_day weekNum dayNum st) as [[dayEl e]|]; reflexivity.
Qed.

Lemma step_keeps_loaded_has_description e st st' :
  describes_days e →
  step e st = Some st' →
  Forall loaded_has_description (heap st) →
  Forall loaded_has_description (heap st').
Proof.
  destruct e as [weekNum|weekNum dayNum|k r|k r]; simpl.
  - intros _ [= <-]. rewrite toggle_keeps_heap. auto.
  - intros _ [= <-]. rewrite load_keeps_heap. auto.
  - intros Hr. destruct (inflight st !! k) as [[i|l]|]; try discriminate.
    intros [= <-] Hinv. unfold toggleWeekExpand_resume.
    destruct (week_try r) as [ds|e] eqn:Htry; simpl; [|exact Hinv].
    apply week_try_Return in Htry as (status & detail & data & -> & ->).
    apply Forall_app. split; [exact Hinv | exact Hr].
  - intros Hr. destruct (inflight st !! k) as [[i|l]|]; try discriminate.
    intros [= <-] Hinv. unfold loadDayContent_resume.
    destruct (day_try r) as [details|e] eqn:Htry; simpl; [|exact Hinv].
    apply day_try_Return in Htry as (status & detail & ->).
    destruct Hr as [s Hs].
    apply Forall_alter; [exact Hinv|].
    intros x _ _ _. simpl. rewrite Hs. discriminate.
Qed.

End invariants.

(** C2: at every state of a course, each week that is expanded has its
    days, and every operation keeps it so: a toggle, a day load, a response
    to either, and a rendering of the timeline. *)
Theorem expanded_weeks_have_days st :
  reachable st →
  (∀ w, w ∈ weeks st → Week._expanded w = true → Week._days w ≠ None) ∧
  (∀ e st', step e st = Some st' →
     ∀ w, w ∈ weeks st' → Week._expanded w = true → Week._days w ≠ None) ∧
  (∀ w, w ∈ weeks (renderWeeklyTimeline st) →
     Week._expanded w = true → Week._days w ≠ None).
Proof.
  intros Hst. apply reachable_expanded_has_days in Hst.
  split; [|split].
  - intros w Hw. rewrite Forall_forall in Hst. exact (Hst w Hw).
  - intros e st' Hstep w Hw.
    apply (step_keeps_expanded_has_days e st st' Hstep) in Hst.
    rewrite Forall_forall in Hst. exact (Hst w Hw).
  - intros w Hw. rewrite Forall_forall in Hst. exact (Hst w Hw).
Qed.

Lemma reachable_run allowed es st st' :
  reachable_by allowed st →
  Forall allowed es →
  run es st = Some st' →
  reachable_by allowed st'.
Proof.
  intros Hst Hes. revert st Hst.
  induction Hes as [|e es He _ IH]; intros st Hst; simpl.
  - intros [= <-]. exact Hst.
  - destruct (step e st) as [st1|] eqn:Hstep; simpl; [|discriminate].
    apply IH. exact (reachable_step allowed st e st1 Hst He Hstep).
Qed.

Lemma reachable_by_describing_loaded :
  reachable_by describes_days Sample.st_loaded.
Proof.
  apply (reachable_run _ (Sample.expand2 ++ Sample.load3) Sample.st0).
  - apply (reachable_outline _ Sample.outline Sample.params). repeat constructor.
  - repeat constructor; try (intros ?; discriminate).
    exists "Dynamic dispatch with dyn". reflexivity.
  - vm_compute. reflexivity.
Qed.

Lemma reachable_by_weaken (P Q : Event → Prop) st :
  (∀ e, P e → Q e) → reachable_by P st → reachable_by Q st.
Proof.
  intros HPQ. induction 1 as [course params Hws|st e st' _ IH He Hstep].
  - apply reachable_outline. exact Hws.
  - eapply reachable_step; eauto.
Qed.

Lemma expanded_weeks_have_days_witness :
  reachable Sample.st_loaded ∧
  ∀ w, w ∈ weeks Sample.st_loaded → Week._expanded w = true → Week._days w ≠ None.
Proof.
  assert (H : reachable Sample.st_loaded).
  { apply (reachable_by_weaken describes_days); [intros; exact I|].
    exact reachable_by_describing_loaded. }
  split; [exact H|]. exact (proj1 (expanded_weeks_have_days Sample.st_loaded H)).
Defined.

Lemma reachable_loaded_has_description st :
  reachable_by describes_days st → Forall loaded_has_description (heap st).
Proof.
  induction 1 as [course params Hws|st e st' _ IH He Hstep].
  - constructor.
  - eapply step_keeps_loaded_has_description; eauto.
Qed.

(** C3, amended: at every state of a course whose backend sends a non-null
    description with every day's details, and marks no day loaded without
    one, each day of each week that is loaded has its description. *)
Theorem loaded_days_have_description st d :
  reachable_by describes_days st →
  day_of_course st d →
  Day._loaded d = true → Day.description d ≠ None.
Proof.
  intros Hst (w & ds & l & _ & _ & _ & Hd).
  apply reachable_loaded_has_description in Hst.
  rewrite Forall_lookup in Hst. exact (Hst l d Hd).
Qed.

Lemma loaded_days_have_description_witness :
  ∃ d, heap Sample.st_loaded !! 2%nat = Some d ∧
       Day._loaded d = true ∧ Day.description d ≠ None.
Proof.
  eexists. split; [reflexivity|]. split; [reflexivity|].
  apply (loaded_days_have_description Sample.st_loaded).
  - exact reachable_by_describing_loaded.
  - exists (Week.set_expanded true (Week.set_days [0; 1; 2]%nat Sample.week2)),
      [0; 1; 2]%nat, 2%nat.
    split; [right; left|]. split; [reflexivity|]. split; [|reflexivity].
    right. right. left.
  - reflexivity.
Defined.

(** C3, as claimed, fails: day 3 of week 2 of the sample course is clicked
    and the backend answers 200 with [{}]; the merge marks the day loaded
    and it has no description. *)
Lemma loaded_without_description :
  reachable Sample.st_undescribed ∧
  ∃ d, day_of_course Sample.st_undescribed d ∧
       Day._loaded d = true ∧ Day.description d = None.
Proof.
  split.
  - apply (reachable_run _ (Sample.expand2 ++ Sample.load3_undescribed) Sample.st0).
    + apply (reachable_outline _ Sample.outline Sample.params). repeat constructor.
    + repeat constructor.
    + vm_compute. reflexivity.
  - exists (Day.set_loaded true (Sample.day 3 "trait objects")).
    split; [|split; reflexivity].
    exists (Week.set_expanded true (Week.set_days [0; 1; 2]%nat Sample.week2)),
      [0; 1; 2]%nat, 2%nat.
    split; [right; left|]. split; [reflexivity|]. split; [|reflexivity].
    right. right. left.
Qed.

(** ** Error messages *)

(** C4, amended: on an error status, outline generation raises an error
    whose message is the string of the body's [detail] when that is truthy,
    so the detail itself when it is a non-empty string, or the message of
    the error that converting it to a string throws; [Server error:
    <status>] when the body has no [detail] or a falsy one, or is not JSON;
    and the engine's message for reading a property of [null] when the body
    is [null].  Week and day generation raise their own fixed messages,
    whatever the body holds. *)
Theorem error_status_messages status :
  ok status = false →
  (∀ m course, m ≠ "" →
     outline_try (OutlineHttp status (OutlineObject (Some (JString m)) course)) =
       Throw m) ∧
  (∀ v course m, truthy v = true → ToString v = Return m ∨ ToString v = Throw m →
     outline_try (OutlineHttp status (OutlineObject (Some v) course)) = Throw m) ∧
  (∀ detail course,
     detail = None ∨ detail = Some JNull ∨ detail = Some (JBool false) ∨
     detail = Some (JString "") ∨ (∃ text, detail = Some (JNumber true text)) →
     outline_try (OutlineHttp status (OutlineObject detail course)) =
       Throw ("Server error: " +:+ pretty status)) ∧
  (∀ v, truthy v = false ↔
        v = JNull ∨ v = JBool false ∨ v = JString "" ∨ ∃ text, v = JNumber true text) ∧
  (∀ e, outline_try (OutlineHttp status (OutlineMalformed e)) =
          Throw ("Server error: " +:+ pretty status)) ∧
  (∀ read_error write_error,
     outline_try (OutlineHttp status (OutlineNull read_error write_error)) =
       Throw read_error) ∧
  (∀ body, week_try (Http status body) = Throw "Failed to load week details") ∧
  (∀ body, day_try (Http status body) = Throw "Failed to load day details").
Proof.
  intros Hok. unfold outline_try, week_try, day_try. rewrite Hok. simpl.
  split; [|split; [|split; [|split; [|repeat split]]]].
  - intros m course Hm. destruct m; [contradiction|reflexivity].
  - intros v course m Hv Hm. rewrite Hv. destruct Hm as [-> | ->]; reflexivity.
  - intros detail course [->|[->|[->|[->|[text ->]]]]]; reflexivity.
  - intros v. split.
    + destruct v as [|[|]|[|] text|[|a s]|items|e]; simpl; try discriminate; eauto 6.
    + intros [->|[->|[->|[text ->]]]]; reflexivity.
Qed.

Lemma error_status_messages_witness :
  outline_try (OutlineHttp 500
      (OutlineObject (Some (JString "model not found")) (Return Sample.no_course))) =
    Throw "model not found" ∧
  outline_try Sample.unprocessable = Throw "[object Object],[object Object]" ∧
  outline_try (OutlineHttp 500
      (OutlineObject (Some (JArray [JNumber false "404"; JNull; JBool true]))
                     (Return Sample.no_course))) =
    Throw "404,,true" ∧
  outline_try (OutlineHttp 404 (OutlineObject None (Return Sample.no_course))) =
    Throw "Server error: 404" ∧
  outline_try (OutlineHttp 503 (OutlineMalformed "Unexpected token <")) =
    Throw "Server error: 503" ∧
  outline_try (OutlineHttp 500 (OutlineNull "err is null" "currentCourse is null")) =
    Throw "err is null" ∧
  week_try (Sample.model_not_found (mkWeekJson None)) =
    Throw "Failed to load week details".
Proof.
  destruct (error_status_messages 500 eq_refl)
    as (Hstring & Htruthy & _ & _ & _ & Hnull & Hweek & _).
  destruct (error_status_messages 422 eq_refl) as (_ & Hlist & _).
  destruct (error_status_messages 404 eq_refl) as (_ & _ & Hmissing & _).
  destruct (error_status_messages 503 eq_refl) as (_ & _ & _ & _ & Hmalformed & _).
  split; [|split; [|split; [|split; [|split; [|split]]]]].
  - apply Hstring. discriminate.
  - apply Hlist; [reflexivity | left; reflexivity].
  - apply Htruthy; [reflexivity | left; reflexivity].
  - apply Hmissing. left. reflexivity.
  - apply Hmalformed.
  - apply Hnull.
  - apply Hweek.
Defined.

(** C4, as claimed, fails: the backend answers the week request, and the
    day request, with status 500 and the message [model not found]; the
    error raised does not carry it, and neither does the toast. *)
Lemma week_and_day_errors_drop_detail :
  week_try (Sample.model_not_found (mkWeekJson None)) ≠ Throw "model not found" ∧
  day_try (Sample.model_not_found Sample.no_details) ≠ Throw "model not found" ∧
  (message <$> last (toasts (toggleWeekExpand_resume 0
      (Sample.model_not_found (mkWeekJson None)) (toggleWeekExpand 1 Sample.st0)))) =
    Some "Failed to load week details. Click to retry." ∧
  (message <$> last (toasts (loadDayContent_resume 2%nat
      (Sample.model_not_found Sample.no_details) (loadDayContent 2 3 Sample.st_expanded)))) =
    Some "Failed to load day details.".
Proof.
  split; [discriminate|]. split; [discriminate|]. split; reflexivity.
Qed.

(** ** Escaping *)

Lemma append_cons x (a b : string) : String x a +:+ b = String x (a +:+ b).
Proof. reflexivity. Qed.

Lemma append_assoc (a b c : string) : (a +:+ b) +:+ c = a +:+ b +:+ c.
Proof.
  induction a as [|x a IH]; [reflexivity|].
  rewrite !append_cons, IH. reflexivity.
Qed.

Lemma occurs_skip a needle hay : occurs needle hay → occurs needle (a +:+ hay).
Proof.
  intros (pre & post & ->). exists (a +:+ pre), post.
  rewrite append_assoc. reflexivity.
Qed.

Lemma occurs_prefix needle hay post : hay = needle +:+ post → occurs needle hay.
Proof. intros ->. exists "", post. reflexivity. Qed.

(** Walks down a template to the piece [lit]. *)
Ltac skip_to lit :=
  repeat lazymatch goal with
         | |- occurs _ (lit +:+ _) => fail
         | |- occurs _ (_ +:+ _) => apply occurs_skip
         end.

Lemma or_string_nonempty f fallback : f ≠ "" → or_string (Some f) fallback = f.
Proof. destruct f; [contradiction | reflexivity]. Qed.

(** C8 fails on the code for a week's focus: [renderWeekCard] inserts it as
    it is, as a class name and as the text of the badge, while the title
    and the concepts beside it go through [escHtml]. *)
Theorem focus_is_not_escaped h week f :
  Week.focus week = Some f →
  f ≠ "" →
  occurs ("day-type " +:+ f +:+ Markup.dq +:+ ">" +:+ f +:+ "</span>")
         (Markup.renderWeekCard h week).
Proof.
  intros Hf Hne. cbv beta zeta delta [Markup.renderWeekCard].
  rewrite Hf, (or_string_nonempty f "theory" Hne).
  skip_to "day-type ".
  eapply occurs_prefix. rewrite !append_assoc.
  do 5 apply (f_equal2 String.append eq_refl). reflexivity.
Qed.

Lemma focus_is_not_escaped_witness :
  occurs ("day-type <img src=x onerror=alert(1)>" +:+ Markup.dq +:+
          "><img src=x onerror=alert(1)></span>")
         (Markup.renderWeekCard [] Sample.week_img).
Proof.
  apply (focus_is_not_escaped [] Sample.week_img "<img src=x onerror=alert(1)>").
  - reflexivity.
  - discriminate.
Defined.

(** The same for a day's task type in [renderDayCard]. *)
Lemma task_type_is_not_escaped day weekNum t :
  Day.task_type day = Some t →
  t ≠ "" →
  occurs ("day-type " +:+ t +:+ Markup.dq +:+ " style=" +:+ Markup.dq +:+
          "font-size:0.65rem" +:+ Markup.dq +:+ ">" +:+ t +:+ "</span>")
         (Markup.renderDayCard day weekNum).
Proof.
  intros Ht Hne. cbv beta zeta delta [Markup.renderDayCard].
  rewrite Ht, (or_string_nonempty t "theory" Hne).
  skip_to "day-type ".
  eapply occurs_prefix. rewrite !append_assoc.
  do 9 apply (f_equal2 String.append eq_refl). reflexivity.
Qed.

(** What does go through the escaping functions comes out without the
    characters that open a tag or close an attribute. *)

Lemma has_char_append c a b :
  has_char c (a +:+ b) = has_char c a || has_char c b.
Proof.
  induction a as [|x a IH]; [reflexivity|].
  rewrite append_cons. simpl. rewrite IH, orb_assoc. reflexivity.
Qed.

Lemma serialize_text_cons c r :
  Markup.serialize_text (String c r) =
    if Ascii.eqb c "&" then "&amp;" +:+ Markup.serialize_text r
    else if Ascii.eqb c "<" then "&lt;" +:+ Markup.serialize_text r
    else if Ascii.eqb c ">" then "&gt;" +:+ Markup.serialize_text r
    else match r with
         | String c' r' =>
             if Ascii.eqb c "194" && Ascii.eqb c' "160"
             then "&nbsp;" +:+ Markup.serialize_text r'
             else String c (Markup.serialize_text r)
         | EmptyString => String c EmptyString
         end.
Proof.
  destruct c as [[] [] [] [] [] [] [] []]; reflexivity.
Qed.

Lemma serialize_text_no_angle_upto n s :
  (String.length s ≤ n)%nat →
  has_char "<" (Markup.serialize_text s) = false ∧
  has_char ">" (Markup.serialize_text s) = false.
Proof.
  revert s. induction n as [|n IH]; intros [|c r] Hlen; simpl in Hlen;
    try (split; reflexivity); try lia.
  assert (Hr : (String.length r ≤ n)%nat) by lia.
  destruct (IH r Hr) as [IHlt IHgt].
  rewrite serialize_text_cons.
  destruct (Ascii.eqb c "&");
    [rewrite !has_char_append, IHlt, IHgt; split; reflexivity|].
  destruct (Ascii.eqb c "<") eqn:Hc1;
    [rewrite !has_char_append, IHlt, IHgt; split; reflexivity|].
  destruct (Ascii.eqb c ">") eqn:Hc2;
    [rewrite !has_char_append, IHlt, IHgt; split; reflexivity|].
  destruct r as [|c' r'].
  - simpl. rewrite Hc1, Hc2. split; reflexivity.
  - destruct (Ascii.eqb c "194" && Ascii.eqb c' "160").
    + simpl in Hr. destruct (IH r' ltac:(lia)) as [H1 H2].
      rewrite !has_char_append, H1, H2. split; reflexivity.
    + change (has_char "<" (String c (Markup.serialize_text (String c' r'))))
        with (Ascii.eqb c "<" || has_char "<" (Markup.serialize_text (String c' r'))).
      change (has_char ">" (String c (Markup.serialize_text (String c' r'))))
        with (Ascii.eqb c ">" || has_char ">" (Markup.serialize_text (String c' r'))).
      rewrite Hc1, Hc2, IHlt, IHgt. split; reflexivity.
Qed.

Lemma escHtml_no_angle str :
  has_char "<" (Markup.escHtml str) = false ∧
  has_char ">" (Markup.escHtml str) = false.
Proof.
  destruct str as [[|c r]|]; try (split; reflexivity).
  apply (serialize_text_no_angle_upto (String.length (String c r))). lia.
Qed.

Lemma replace_all_removes c by_ s :
  has_char c by_ = false → has_char c (Markup.replace_all c by_ s) = false.
Proof.
  intros Hby. induction s as [|a r IH]; simpl; [reflexivity|].
  destruct (Ascii.eqb a c) eqn:Hac.
  - rewrite has_char_append, Hby, IH. reflexivity.
  - simpl. rewrite Hac, IH. reflexivity.
Qed.

Lemma replace_all_keeps_out c d by_ s :
  has_char d by_ = false → has_char d s = false →
  has_char d (Markup.replace_all c by_ s) = false.
Proof.
  intros Hby. induction s as [|a r IH]; simpl; [reflexivity|].
  intros H. apply orb_false_iff in H as [Had Hr].
  destruct (Ascii.eqb a c).
  - rewrite has_char_append, Hby, (IH Hr). reflexivity.
  - simpl. rewrite Had, (IH Hr). reflexivity.
Qed.

Lemma escAttr_no_delimiter str :
  has_char "034" (Markup.escAttr str) = false ∧
  has_char "'" (Markup.escAttr str) = false ∧
  has_char "<" (Markup.escAttr str) = false ∧
  has_char ">" (Markup.escAttr str) = false.
Proof.
  destruct str as [[|c r]|]; try (repeat split; reflexivity).
  unfold Markup.escAttr. repeat split.
  - do 3 (apply replace_all_keeps_out; [reflexivity|]).
    apply replace_all_removes. reflexivity.
  - do 2 (apply replace_all_keeps_out; [reflexivity|]).
    apply replace_all_removes. reflexivity.
  - apply replace_all_keeps_out; [reflexivity|].
    apply replace_all_removes. reflexivity.
  - apply replace_all_removes. reflexivity.
Qed.

(** ** What the events leave alone *)

Lemma map_alter_preserved {A B} (g : A → B) (f : A → A) i (l : list A) :
  (∀ x, g (f x) = g x) → map g (alter f i l) = map g l.
Proof.
  intros Hf. revert i. induction l as [|x l IH]; intros [|i]; simpl;
    [reflexivity | reflexivity | rewrite Hf; reflexivity | f_equal; apply IH].
Qed.

Lemma toggle_keeps_outlines weekNum st :
  map week_outline (weeks (toggleWeekExpand weekNum st)) = map week_outline (weeks st).
Proof.
  unfold toggleWeekExpand.
  destruct (find_week weekNum (weeks st)) as [[i week]|]; [|reflexivity].
  destruct (Week._expanded week); [|destruct (Week._days week)]; simpl;
    apply map_alter_preserved; reflexivity.
Qed.

Lemma week_resume_keeps_outlines i r st :
  map week_outline (weeks (toggleWeekExpand_resume i r st)) = map week_outline (weeks st).
Proof.
  unfold toggleWeekExpand_resume. destruct (week_try r) as [ds|e]; simpl.
  - rewrite !map_alter_preserved by reflexivity. reflexivity.
  - apply map_alter_preserved. reflexivity.
Qed.

Lemma step_keeps_outlines e st st' :
  step e st = Some st' →
  map week_outline (weeks st') = map week_outline (weeks st).
Proof.
  destruct e as [weekNum|weekNum dayNum|k r|k r]; simpl.
  - intros [= <-]. apply toggle_keeps_outlines.
  - intros [= <-]. rewrite load_keeps_weeks. reflexivity.
  - destruct (inflight st !! k) as [[i|l]|]; try discriminate.
    intros [= <-].
    exact (week_resume_keeps_outlines i r (set_inflight (delete k (inflight st)) st)).
  - destruct (inflight st !! k) as [[i|l]|]; try discriminate.
    intros [= <-]. rewrite day_resume_keeps_weeks. reflexivity.
Qed.

(** X1: no sequence of clicks and responses adds, removes or reorders a
    week, or changes a week's number, title, focus or concepts: only the
    client's flags and days change. *)
Theorem week_outlines_are_stable es st st' :
  run es st = Some st' →
  map week_outline (weeks st') = map week_outline (weeks st).
Proof.
  revert st. induction es as [|e es IH]; intros st; simpl.
  - intros [= <-]. reflexivity.
  - destruct (step e st) as [st1|] eqn:Hstep; simpl; [|discriminate].
    intros Hrun. rewrite (IH st1 Hrun). exact (step_keeps_outlines e st st1 Hstep).
Qed.

Lemma week_outlines_are_stable_witness :
  map week_outline (weeks Sample.st_loaded) = map week_outline (weeks Sample.st0).
Proof.
  apply (week_outlines_are_stable (Sample.expand2 ++ Sample.load3)).
  vm_compute. reflexivity.
Defined.

(** ** The timeline shows the state *)

Lemma elem_of_week_day_cards h w e :
  e ∈ week_day_cards h w ↔
  Week._expanded w = true ∧
  ∃ ds l d, Week._days w = Some ds ∧ l ∈ ds ∧ h !! l = Some d ∧
            e = mkDayEl (Week.week w) (Day.day d) 0.
Proof.
  unfold week_day_cards.
  destruct (Week._days w) as [ds|]; [destruct (Week._expanded w)|].
  - rewrite list_elem_of_omap. split.
    + intros (l & Hl & He). destruct (h !! l) as [d|] eqn:Hd; simpl in He;
        [|discriminate].
      injection He as <-. split; [reflexivity|]. exists ds, l, d. auto.
    + intros (_ & ds' & l & d & [= <-] & Hl & Hd & ->).
      exists l. split; [exact Hl|]. rewrite Hd. reflexivity.
  - split; [intros H; inversion H | intros [H _]; discriminate].
  - split; [intros H; inversion H | intros (_ & ? & ? & ? & H & _); discriminate].
Qed.

Lemma elem_of_rendered_ids h ws weekNum dayNum :
  (weekNum, dayNum) ∈ card_ids (mbind (week_day_cards h) ws) ↔
  ∃ w ds l d, w ∈ ws ∧ Week.week w = weekNum ∧ Week._expanded w = true ∧
              Week._days w = Some ds ∧ l ∈ ds ∧ h !! l = Some d ∧
              Day.day d = dayNum.
Proof.
  unfold card_ids. rewrite list_elem_of_fmap. split.
  - intros (e & He & Hin). apply list_elem_of_bind in Hin as (w & Hin & Hw).
    apply elem_of_week_day_cards in Hin as (Hexp & ds & l & d & Hds & Hl & Hd & ->).
    simpl in He. injection He as -> ->. exists w, ds, l, d. auto 10.
  - intros (w & ds & l & d & Hw & <- & Hexp & Hds & Hl & Hd & <-).
    exists (mkDayEl (Week.week w) (Day.day d) 0). split; [reflexivity|].
    apply list_elem_of_bind. exists w. split; [|exact Hw].
    apply elem_of_week_day_cards. split; [exact Hexp|]. exists ds, l, d. auto.
Qed.

(** What a day load that sends a request found on its way. *)
Lemma load_sends st weekNum dayNum req :
  calls (loadDayContent weekNum dayNum st) = calls st ++ [req] →
  ∃ i week ds l day e el,
    find_week weekNum (weeks st) = Some (i, week) ∧
    Week._days week = Some ds ∧
    find_day (heap st) dayNum ds = Some (l, day) ∧
    Day._loaded day = false ∧
    query_day weekNum dayNum st = Some (e, el) ∧
    req = day_request (requestParams st) weekNum dayNum day ∧
    loadDayContent weekNum dayNum st = fetch req (PendingDay l) (append_spinner e st).
Proof.
  unfold loadDayContent.
  assert (Hsame : calls st = calls st ++ [req] → False).
  { intros H. apply (f_equal length) in H. rewrite length_app in H.
    simpl in H. lia. }
  destruct (find_week weekNum (weeks st)) as [[i week]|] eqn:Hw; [|tauto].
  destruct (Week._days week) as [ds|] eqn:Hds; [|tauto].
  destruct (find_day (heap st) dayNum ds) as [[l day]|] eqn:Hd; [|tauto].
  destruct (Day._loaded day) eqn:Hl; [tauto|].
  destruct (query_day weekNum dayNum st) as [[e el]|] eqn:Hq; [|tauto].
  simpl. intros H. apply app_inv_head in H. injection H as <-.
  exists i, week, ds, l, day, e, el. repeat split; assumption.
Qed.

Lemma same_key_same_element {A B} (f : A → B) (l : list A) x y :
  NoDup (map f l) → x ∈ l → y ∈ l → f x = f y → x = y.
Proof.
  induction l as [|a l IH]; simpl; intros Hnd Hx Hy Hf; [inversion Hx|].
  apply NoDup_cons in Hnd as [Ha Hnd].
  apply elem_of_cons in Hx as [->|Hx]; apply elem_of_cons in Hy as [->|Hy].
  - reflexivity.
  - exfalso. apply Ha. rewrite Hf. apply list_elem_of_fmap. eauto.
  - exfalso. apply Ha. rewrite <- Hf. apply list_elem_of_fmap. eauto.
  - auto.
Qed.

(** X3: as long as the page shows the course, which asks that no focus and
    no task type of it holds markup, and the week numbers are distinct, the
    days of a week that is not expanded cannot be loaded: a day load on
    such a week changes nothing and sends nothing, also when the week has
    its days. *)
Theorem collapsed_week_loads_nothing st weekNum dayNum i week :
  plain_texts st = true →
  shows_course st →
  NoDup (map Week.week (weeks st)) →
  find_week weekNum (weeks st) = Some (i, week) →
  Week._expanded week = false →
  step (Load weekNum dayNum) st = Some st.
Proof.
  intros _ Hst Hnd Hw Hexp. simpl. f_equal.
  unfold loadDayContent. rewrite Hw.
  destruct (Week._days week) as [ds|]; [|reflexivity].
  destruct (find_day (heap st) dayNum ds) as [[l day]|]; [|reflexivity].
  destruct (Day._loaded day); [reflexivity|].
  destruct (query_day weekNum dayNum st) as [[e el]|] eqn:Hq; [|reflexivity].
  exfalso. unfold query_day in Hq. apply list_find_Some in Hq as (He & [Hew Hed] & _).
  assert (Hin : (weekNum, dayNum) ∈ card_ids (timeline st)).
  { unfold card_ids. apply list_elem_of_fmap. exists el.
    split; [rewrite Hew, Hed; reflexivity|].
    apply list_elem_of_lookup. eauto. }
  rewrite Hst in Hin.
  apply elem_of_rendered_ids in Hin as (w & ? & ? & ? & Hin & Hn & Hwe & _).
  destruct (find_week_Some _ _ _ _ Hw) as [Hi Hweek].
  assert (w = week) as ->.
  { apply (same_key_same_element Week.week (weeks st)); auto.
    - apply list_elem_of_lookup. eauto.
    - congruence. }
  congruence.
Qed.

Lemma collapsed_week_loads_nothing_witness :
  let st := toggleWeekExpand 2 Sample.st_loaded in
  (Week._days <$> weeks st !! 1%nat) = Some (Some [0; 1; 2]%nat) ∧
  step (Load 2 1) st = Some st.
Proof.
  intros st. split; [reflexivity|].
  apply (collapsed_week_loads_nothing st 2 1 1
           (Week.set_expanded false
              (Week.set_expanded true (Week.set_days [0; 1; 2]%nat Sample.week2)))).
  - reflexivity.
  - reflexivity.
  - apply (bool_decide_unpack _). vm_compute. exact I.
  - reflexivity.
  - reflexivity.
Defined.

(** ** Responses that succeed *)

Lemma lookup_fresh (h ds : list Day.t) :
  (λ l, (h ++ ds) !! l) <$> seq (length h) (length ds) = Some <$> ds.
Proof.
  revert h. induction ds as [|d ds IH]; intros h; simpl; [reflexivity|].
  f_equal.
  - apply list_lookup_middle. reflexivity.
  - specialize (IH (h ++ [d])). rewrite <- app_assoc, length_app in IH.
    simpl in IH. rewrite Nat.add_1_r in IH. exact IH.
Qed.

(** X4: a successful answer to a week's fetch installs the backend's days:
    the week gets new day objects that are the days of the answer, in the
    answer's order, it is expanded and no longer loading; the other weeks,
    the day objects there were, the calls and the toasts stay as they are,
    also when the week had days already. *)
Theorem week_response_installs_days st k i r ds week :
  inflight st !! k = Some (PendingWeek i) →
  week_try r = Return ds →
  weeks st !! i = Some week →
  ∃ st' ls, step (WeekResponse k r) st = Some st' ∧
    weeks st' =
      <[i := Week.set_expanded true (Week.set_loading false (Week.set_days ls week))]>
        (weeks st) ∧
    heap st' = heap st ++ ds ∧
    (λ l, heap st' !! l) <$> ls = Some <$> ds ∧
    calls st' = calls st ∧
    toasts st' = toasts st ∧
    inflight st' = delete k (inflight st).
Proof.
  intros Hk Hr Hi. eexists _, (seq (length (heap st)) (length ds)). split.
  { simpl. rewrite Hk. unfold toggleWeekExpand_resume. rewrite Hr. reflexivity. }
  simpl. split; [|split; [reflexivity|split; [apply lookup_fresh|auto]]].
  rewrite !list_alter_alter_eq, (alter_lookup _ _ _ week Hi). reflexivity.
Qed.

Lemma week_response_installs_days_witness :
  ∃ st' ls, step (WeekResponse 0 (Http 200 (Json None Sample.week2_days)))
                 (toggleWeekExpand 2 Sample.st0) = Some st' ∧
    (Week._days <$> weeks st' !! 1%nat) = Some (Some ls) ∧
    (λ l, heap st' !! l) <$> ls =
      [Some (Sample.day 1 "impl blocks"); Some (Sample.day 2 "generics");
       Some (Sample.day 3 "trait objects")].
Proof.
  destruct (week_response_installs_days (toggleWeekExpand 2 Sample.st0) 0 1
              (Http 200 (Json None Sample.week2_days))
              (default [] (days Sample.week2_days))
              (Week.set_loading true Sample.week2) eq_refl eq_refl eq_refl)
    as (st' & ls & Hstep & Hws & _ & Hls & _).
  exists st', ls. split; [exact Hstep|]. split.
  - rewrite Hws. reflexivity.
  - rewrite Hls. reflexivity.
Defined.

(** X5: a successful answer to a day's fetch is merged into that day and
    no other: the day object the click was made on takes the properties of
    the answer, keeps the ones the answer lacks, and is loaded; every other
    day object, every week, the calls and the toasts stay as they are. *)
Theorem day_response_merges_into_its_day st k l r details day :
  inflight st !! k = Some (PendingDay l) →
  day_try r = Return details →
  heap st !! l = Some day →
  ∃ st', step (DayResponse k r) st = Some st' ∧
    heap st' = <[l := Day.set_loaded true (assign day details)]> (heap st) ∧
    (∀ l', l' ≠ l → heap st' !! l' = heap st !! l') ∧
    (DayDetails.day details = None →
     DayDetails.title details = None →
     ∃ day', heap st' !! l = Some day' ∧ Day._loaded day' = true ∧
             Day.day day' = Day.day day ∧ Day.title day' = Day.title day) ∧
    weeks st' = weeks st ∧
    calls st' = calls st ∧
    toasts st' = toasts st ∧
    inflight st' = delete k (inflight st).
Proof.
  intros Hk Hr Hl. eexists. split.
  { simpl. rewrite Hk. unfold loadDayContent_resume. rewrite Hr. reflexivity. }
  simpl. split; [rewrite (alter_lookup _ _ _ day Hl); reflexivity|].
  split; [intros l' Hne; apply list_lookup_alter_ne; auto|].
  split; [|auto].
  intros Hday Htitle. eexists. split.
  - rewrite list_lookup_alter_eq. exact (f_equal (fmap _) Hl).
  - simpl. rewrite Hday, Htitle. auto.
Qed.

Lemma day_response_merges_into_its_day_witness :
  ∃ st', step (DayResponse 0 (Http 200 (Json None Sample.day3_details)))
              (loadDayContent 2 3 Sample.st_expanded) = Some st' ∧
    (Day.description <$> heap st' !! 2%nat) = Some (Some "Dynamic dispatch with dyn") ∧
    heap st' !! 0%nat = heap Sample.st_expanded !! 0%nat ∧
    weeks st' = weeks Sample.st_expanded.
Proof.
  destruct (day_response_merges_into_its_day (loadDayContent 2 3 Sample.st_expanded)
              0 2%nat (Http 200 (Json None Sample.day3_details)) Sample.day3_details
              (Sample.day 3 "trait objects") eq_refl eq_refl eq_refl)
    as (st' & Hstep & Hh & Hother & _ & Hws & _).
  exists st'. split; [exact Hstep|]. split; [|split].
  - rewrite Hh. reflexivity.
  - etransitivity; [apply Hother; discriminate | reflexivity].
  - rewrite Hws. reflexivity.
Defined.

(** ** A day fetch that fails, and one that is asked for twice *)

Lemma load_sends_again st st' weekNum dayNum req :
  weeks st' = weeks st → heap st' = heap st → requestParams st' = requestParams st →
  card_ids (timeline st') = card_ids (timeline st) →
  calls (loadDayContent weekNum dayNum st) = calls st ++ [req] →
  calls (loadDayContent weekNum dayNum st') = calls st' ++ [req].
Proof.
  intros Hws Hh Hp Ht Hsend.
  apply load_sends in Hsend
    as (i & week & ds & l & day & e & el & Hw & Hds & Hd & Hl & Hq & -> & _).
  unfold loadDayContent. rewrite Hws, Hh, Hw, Hds, Hd, Hl.
  destruct (query_day weekNum dayNum st') as [[e' el']|] eqn:Hq'.
  - simpl. rewrite Hp. reflexivity.
  - exfalso. unfold query_day in Hq, Hq'.
    apply list_find_Some in Hq as (He & [Hew Hed] & _).
    rewrite list_find_None, Forall_forall in Hq'.
    assert (Hin : (weekNum, dayNum) ∈ card_ids (timeline st')).
    { rewrite Ht. unfold card_ids. apply list_elem_of_fmap. exists el.
      split; [rewrite Hew, Hed; reflexivity|]. apply list_elem_of_lookup. eauto. }
    unfold card_ids in Hin. apply list_elem_of_fmap in Hin as (el' & Heq & Hin).
    apply (Hq' el' Hin). injection Heq as -> ->. auto.
Qed.

(** X6: when a day's fetch fails (the backend is unreachable, answers with
    an error status or not with JSON), the weeks, the day objects, the
    timeline with its loading indicator and the calls stay as they are, the
    toast says [Failed to load day details.], and a click that would have
    sent the day's request before the failure sends it after it. *)
Theorem day_failure_is_retryable st k l r e weekNum dayNum req :
  inflight st !! k = Some (PendingDay l) →
  day_try r = Throw e →
  calls (loadDayContent weekNum dayNum st) = calls st ++ [req] →
  ∃ st', step (DayResponse k r) st = Some st' ∧
    weeks st' = weeks st ∧
    heap st' = heap st ∧
    timeline st' = timeline st ∧
    calls st' = calls st ∧
    inflight st' = delete k (inflight st) ∧
    toasts st' = toasts st ++ [mkToast "Failed to load day details." true] ∧
    calls (loadDayContent weekNum dayNum st') = calls st ++ [req].
Proof.
  intros Hk Hr Hsend. eexists. split.
  { simpl. rewrite Hk. unfold loadDayContent_resume. rewrite Hr. reflexivity. }
  simpl. repeat (split; [reflexivity|]).
  exact (load_sends_again st
           (showToast "Failed to load day details."
              (console_error e (set_inflight (delete k (inflight st)) st)))
           weekNum dayNum req eq_refl eq_refl eq_refl eq_refl Hsend).
Qed.

Lemma list_find_alter_same {A} (P : A → Prop) `{∀ x, Decision (P x)}
    (f : A → A) (l : list A) i x :
  list_find P l = Some (i, x) → P (f x) →
  list_find P (alter f i l) = Some (i, f x).
Proof.
  revert i. induction l as [|y l IH]; intros i; simpl; [discriminate|].
  destruct (decide (P y)) as [Hy|Hy].
  - intros [= <- <-] Hf. simpl. destruct (decide (P (f y))); [reflexivity|contradiction].
  - destruct (list_find P l) as [[j z]|] eqn:Hfind; simpl; [|discriminate].
    intros [= <- <-] Hf. simpl.
    destruct (decide (P y)); [contradiction|].
    change (list_alter f j l) with (alter f j l).
    rewrite (IH j eq_refl Hf). reflexivity.
Qed.

(** X7: day loads have no guard against a fetch in flight: a click that
    sends a day's request leaves the day unloaded and its card in place, so
    a second click before the answer sends the same request again, and two
    fetches for the same day object are pending. *)
Theorem second_day_click_fetches_again st weekNum dayNum req :
  calls (loadDayContent weekNum dayNum st) = calls st ++ [req] →
  let st2 := loadDayContent weekNum dayNum (loadDayContent weekNum dayNum st) in
  calls st2 = calls st ++ [req; req] ∧
  ∃ l, inflight st2 = inflight st ++ [PendingDay l; PendingDay l].
Proof.
  intros Hsend.
  apply load_sends in Hsend
    as (i & week & ds & l & day & e & el & Hw & Hds & Hd & Hl & Hq & -> & Hst1).
  rewrite Hst1. unfold loadDayContent at 1. simpl.
  rewrite Hw, Hds, Hd, Hl.
  unfold query_day in *. simpl.
  rewrite (list_find_alter_same _ _ _ _ _ Hq)
    by (apply list_find_Some in Hq as (_ & Hel & _); exact Hel).
  simpl. rewrite <- !app_assoc. split; [reflexivity|].
  exists l. reflexivity.
Qed.

Lemma day_failure_is_retryable_witness :
  let st := loadDayContent 2 3 Sample.st_expanded in
  ∃ st', step (DayResponse 0 (Http 503 (Malformed "Unexpected token <"))) st = Some st' ∧
    (Day._loaded <$> heap st' !! 2%nat) = Some false ∧
    (spinners <$> timeline st' !! 2%nat) = Some 1%nat ∧
    length (calls (loadDayContent 2 3 st')) = 3%nat.
Proof.
  intros st.
  destruct (day_failure_is_retryable st 0 2%nat (Http 503 (Malformed "Unexpected token <"))
              "Failed to load day details" 2 3
              (day_request Sample.params 2 3 (Sample.day 3 "trait objects"))
              eq_refl eq_refl eq_refl)
    as (st' & Hstep & _ & Hh & Ht & _ & _ & _ & Hretry).
  exists st'. split; [exact Hstep|]. split; [|split].
  - rewrite Hh. reflexivity.
  - rewrite Ht. reflexivity.
  - rewrite Hretry. reflexivity.
Defined.

Lemma second_day_click_fetches_again_witness :
  let st2 := loadDayContent 2 3 (loadDayContent 2 3 Sample.st_expanded) in
  length (calls st2) = 3%nat ∧ inflight st2 = [PendingDay 2%nat; PendingDay 2%nat].
Proof.
  destruct (second_day_click_fetches_again Sample.st_expanded 2 3
              (day_request Sample.params 2 3 (Sample.day 3 "trait objects")) eq_refl)
    as (Hc & l & Hp).
  split.
  - rewrite Hc. reflexivity.
  - reflexivity.
Defined.

(** ** Requests and the fetches in flight *)

Lemma toggle_accounts weekNum st :
  (calls (toggleWeekExpand weekNum st) = calls st ∧
   inflight (toggleWeekExpand weekNum st) = inflight st) ∨
  ∃ r p, calls (toggleWeekExpand weekNum st) = calls st ++ [r] ∧
         inflight (toggleWeekExpand weekNum st) = inflight st ++ [p].
Proof.
  unfold toggleWeekExpand.
  destruct (find_week weekNum (weeks st)) as [[i week]|]; [|left; auto].
  destruct (Week._expanded week); [left; auto|].
  destruct (Week._days week); [left; auto|].
  right. eexists _, _. split; reflexivity.
Qed.

Lemma load_accounts weekNum dayNum st :
  (calls (loadDayContent weekNum dayNum st) = calls st ∧
   inflight (loadDayContent weekNum dayNum st) = inflight st) ∨
  ∃ r p, calls (loadDayContent weekNum dayNum st) = calls st ++ [r] ∧
         inflight (loadDayContent weekNum dayNum st) = inflight st ++ [p].
Proof.
  unfold loadDayContent.
  destruct (find_week weekNum (weeks st)) as [[i week]|]; [|left; auto].
  destruct (Week._days week) as [ds|]; [|left; auto].
  destruct (find_day (heap st) dayNum ds) as [[l day]|]; [|left; auto].
  destruct (Day._loaded day); [left; auto|].
  destruct (query_day weekNum dayNum st) as [[e el]|]; [|left; auto].
  right. eexists _, _. split; reflexivity.
Qed.

Lemma week_resume_accounts i r st :
  calls (toggleWeekExpand_resume i r st) = calls st ∧
  inflight (toggleWeekExpand_resume i r st) = inflight st.
Proof.
  unfold toggleWeekExpand_resume. destruct (week_try r); split; reflexivity.
Qed.

Lemma day_resume_accounts l r st :
  calls (loadDayContent_resume l r st) = calls st ∧
  inflight (loadDayContent_resume l r st) = inflight st.
Proof.
  unfold loadDayContent_resume. destruct (day_try r); split; reflexivity.
Qed.

Lemma step_accounts e st st' :
  step e st = Some st' →
  calls st `prefix_of` calls st' ∧
  (length (calls st') + length (inflight st) =
   length (calls st) + length (inflight st') + (if is_response e then 1 else 0))%nat.
Proof.
  assert (Hclick : ∀ s s' : State,
    (calls s' = calls s ∧ inflight s' = inflight s) ∨
    (∃ r p, calls s' = calls s ++ [r] ∧ inflight s' = inflight s ++ [p]) →
    calls s `prefix_of` calls s' ∧
    (length (calls s') + length (inflight s) =
     length (calls s) + length (inflight s') + 0)%nat).
  { intros s s' [[-> ->]|(r & p & -> & ->)].
    - split; [reflexivity | lia].
    - split; [apply prefix_app_r; reflexivity|]. rewrite !length_app. simpl. lia. }
  assert (Hdel : ∀ (k : nat) (p : Pending), inflight st !! k = Some p →
    (length (inflight st) = length (delete k (inflight st)) + 1)%nat).
  { intros k p Hk. rewrite length_delete by eauto.
    apply lookup_lt_Some in Hk. lia. }
  destruct e as [weekNum|weekNum dayNum|k r|k r]; simpl.
  - intros [= <-]. apply Hclick, toggle_accounts.
  - intros [= <-]. apply Hclick, load_accounts.
  - destruct (inflight st !! k) as [[i|l]|] eqn:Hk; try discriminate.
    intros [= <-].
    destruct (week_resume_accounts i r (set_inflight (delete k (inflight st)) st))
      as [-> ->].
    simpl. split; [reflexivity|]. rewrite (Hdel k _ Hk). lia.
  - destruct (inflight st !! k) as [[i|l]|] eqn:Hk; try discriminate.
    intros [= <-].
    destruct (day_resume_accounts l r (set_inflight (delete k (inflight st)) st))
      as [-> ->].
    simpl. split; [reflexivity|]. rewrite (Hdel k _ Hk). lia.
Qed.

Lemma responses_cons e es :
  responses (e :: es) = ((if is_response e then 1 else 0) + responses es)%nat.
Proof.
  unfold responses. rewrite filter_cons.
  destruct (is_response e); destruct (decide _); try congruence; reflexivity.
Qed.

(** X8: every request is awaited and answered at most once: over any
    events the calls only grow at their end, and the number of calls sent is
    the number of responses handled plus the growth of the fetches in
    flight.  From a fresh course: calls = in flight + answered. *)
Theorem requests_are_accounted es st st' :
  run es st = Some st' →
  calls st `prefix_of` calls st' ∧
  (length (calls st') + length (inflight st) =
   length (calls st) + length (inflight st') + responses es)%nat.
Proof.
  revert st. induction es as [|e es IH]; intros st; simpl.
  - intros [= <-]. split; [reflexivity|]. unfold responses. simpl. lia.
  - destruct (step e st) as [st1|] eqn:Hstep; simpl; [|discriminate].
    intros Hrun. destruct (IH st1 Hrun) as [Hp Hn].
    destruct (step_accounts e st st1 Hstep) as [Hp1 Hn1].
    split; [etransitivity; eassumption|]. rewrite responses_cons. lia.
Qed.

Lemma requests_are_accounted_witness :
  length (calls Sample.st_loaded) = (length (inflight Sample.st_loaded) + 2)%nat.
Proof.
  destruct (requests_are_accounted (Sample.expand2 ++ Sample.load3)
              Sample.st0 Sample.st_loaded) as [_ H].
  - vm_compute. reflexivity.
  - change (length (calls Sample.st0)) with 0%nat in H.
    change (length (inflight Sample.st0)) with 0%nat in H.
    change (responses (Sample.expand2 ++ Sample.load3)) with 2%nat in H.
    lia.
Defined.

(** ** How outline generation ends *)

Lemma or_string_not_empty s fallback : fallback ≠ "" → or_string s fallback ≠ "".
Proof. destruct s as [[|a r]|]; simpl; auto; discriminate. Qed.

(** The two ways [handleGenerate] ends. *)
Lemma handleGenerate_resume_ends params r :
  (∃ status detail course,
     r = OutlineHttp status (OutlineObject detail (Return course)) ∧ ok status = true ∧
     handleGenerate_resume params r =
       (courseView,
        mkToast "Course outline generated! Click weeks to load daily breakdown." false,
        Replaced (course_state course params))) ∨
  ((¬ ∃ status detail course,
       r = OutlineHttp status (OutlineObject detail (Return course)) ∧ ok status = true) ∧
   ∃ msg update,
     handleGenerate_resume params r = (landing, mkToast msg true, update) ∧
     msg ≠ "" ∧
     (update = Kept ∨ update = Cleared ∨ update = Unrendered) ∧
     (update = Cleared ↔
      ∃ status read_error write_error,
        r = OutlineHttp status (OutlineNull read_error write_error) ∧
        ok status = true) ∧
     (update = Unrendered ↔
      ∃ status detail e,
        r = OutlineHttp status (OutlineObject detail (Throw e)) ∧
        ok status = true)).
Proof.
  assert (Hne : ∀ e, or_string (Some e) "Failed to generate course. Is Ollama running?" ≠ "")
    by (intros e; apply or_string_not_empty; discriminate).
  unfold handleGenerate_resume, outline_try.
  destruct r as [e|status [detail [course|e]|read_error write_error|e]];
    [|destruct (ok status) eqn:Hok; cbn [negb]..].
  - right. split; [intros (? & ? & ? & [=] & _)|].
    eexists _, _. split; [reflexivity|]. split; [apply Hne|].
    split; [left; reflexivity|].
    split; (split; [discriminate | intros (? & ? & ? & [=] & _)]).
  - left. exists status, detail, course.
    split; [reflexivity|]. split; [exact Hok | reflexivity].
  - right. split; [intros (? & ? & ? & [= <- <- <-] & H); congruence|].
    destruct (new_Error detail _) as [m|m]; cbn [throw];
      (eexists _, _; split; [reflexivity|]; split; [apply Hne|];
       split; [left; reflexivity|];
       split; (split; [discriminate | intros (? & ? & ? & [=] & _)])).
  - right. split; [intros (? & ? & ? & [=] & _)|].
    eexists _, _. split; [reflexivity|]. split; [apply Hne|].
    split; [right; right; reflexivity|].
    split; [split; [discriminate | intros (? & ? & ? & [=] & _)]|].
    split; [eauto | reflexivity].
  - right. split; [intros (? & ? & ? & [=] & _)|].
    destruct (new_Error detail _) as [m|m]; cbn [throw];
      (eexists _, _; split; [reflexivity|]; split; [apply Hne|];
       split; [left; reflexivity|];
       split; [split; [discriminate | intros (? & ? & ? & [=] & _)]|];
       split; [discriminate | intros (? & ? & ? & [= <- <- <-] & H); congruence]).
  - right. split; [intros (? & ? & ? & [=] & _)|].
    eexists _, _. split; [reflexivity|]. split; [apply Hne|].
    split; [right; left; reflexivity|].
    split; [split; [eauto | reflexivity]|].
    split; [discriminate | intros (? & ? & ? & [=] & _)].
  - right. split; [intros (? & ? & ? & [=] & _)|].
    eexists _, _. split; [reflexivity|]. split; [apply Hne|].
    split; [left; reflexivity|].
    split; [split; [discriminate | intros (? & ? & ? & [= <- <- <-] & H); congruence]|].
    split; [discriminate | intros (? & ? & ? & [=] & _)].
  - right. split; [intros (? & ? & ? & [=] & _)|].
    eexists _, _. split; [reflexivity|]. split; [apply Hne|].
    split; [left; reflexivity|].
    split; (split; [discriminate | intros (? & ? & ? & [=] & _)]).
  - right. split; [intros (? & ? & ? & [=] & _)|].
    eexists _, _. split; [reflexivity|]. split; [apply Hne|].
    split; [left; reflexivity|].
    split; (split; [discriminate | intros (? & ? & ? & [=] & _)]).
Qed.

(** X9: outline generation never leaves the user on the loading page.  It
    ends on the course view exactly when the answer has a success status
    and a JSON body, other than [null], that [renderCourse] renders, and
    then with the success toast and the answer as the new course.  In every
    other case it ends on the landing page with an error toast that is not
    empty.  [currentCourse] is then what it was, unless the answer had a
    success status and a JSON body: that body, [null] or an object that was
    not rendered, is what [currentCourse] holds. *)
Theorem generation_ends_on_course_or_landing params r :
  let rendered :=
    ∃ status detail course,
      r = OutlineHttp status (OutlineObject detail (Return course)) ∧
      ok status = true in
  let '(page, toast, update) := handleGenerate_resume params r in
  (page = courseView ↔ rendered) ∧
  (page = landing ↔ ¬ rendered) ∧
  (∀ status detail course,
     r = OutlineHttp status (OutlineObject detail (Return course)) →
     ok status = true →
     toast = mkToast "Course outline generated! Click weeks to load daily breakdown."
                     false ∧
     update = Replaced (course_state course params)) ∧
  (¬ rendered →
     isError toast = true ∧ message toast ≠ "" ∧
     (update = Kept ∨ update = Cleared ∨ update = Unrendered) ∧
     (update = Cleared ↔
      ∃ status read_error write_error,
        r = OutlineHttp status (OutlineNull read_error write_error) ∧
        ok status = true) ∧
     (update = Unrendered ↔
      ∃ status detail e,
        r = OutlineHttp status (OutlineObject detail (Throw e)) ∧
        ok status = true)).
Proof.
  intros rendered.
  destruct (handleGenerate_resume_ends params r)
    as [(status & detail & course & Hr & Hok & ->)
       |(Hnot & msg & update & -> & Hmsg & Hupd & Hnull & Hthrown)].
  - assert (Hyes : rendered) by (exists status, detail, course; auto).
    split; [tauto|]. split; [split; [discriminate | tauto]|].
    split; [|tauto].
    intros status' detail' course' Hr' _. rewrite Hr in Hr'.
    injection Hr' as _ _ <-. split; reflexivity.
  - split; [split; [discriminate | tauto]|]. split; [tauto|].
    split; [|auto].
    intros status detail course Hr Hok. exfalso. apply Hnot. eauto.
Qed.

Lemma generation_ends_on_course_or_landing_witness :
  (let '(page, toast, update) :=
     handleGenerate_resume Sample.params
       (OutlineHttp 200 (OutlineObject None (Return Sample.outline))) in
   page = courseView ∧ update = Replaced Sample.st0) ∧
  (let '(page, toast, update) :=
     handleGenerate_resume Sample.params
       (OutlineHttp 200 (OutlineNull "err is null" "currentCourse is null")) in
   page = landing ∧ update = Cleared).
Proof.
  split.
  - pose proof (generation_ends_on_course_or_landing Sample.params
                  (OutlineHttp 200 (OutlineObject None (Return Sample.outline)))) as H.
    cbv zeta in H.
    destruct (handleGenerate_resume _ _) as [[page toast] update].
    destruct H as (Hpage & _ & Hcourse & _).
    split.
    + apply Hpage. exists 200, None, Sample.outline. split; reflexivity.
    + apply (Hcourse 200 None Sample.outline eq_refl eq_refl).
  - pose proof (generation_ends_on_course_or_landing Sample.params
                  (OutlineHttp 200 (OutlineNull "err is null" "currentCourse is null")))
      as H.
    cbv zeta in H.
    destruct (handleGenerate_resume _ _) as [[page toast] update].
    destruct H as (_ & Hpage & _ & Hlanding).
    assert (Hnot : ¬ ∃ status detail course,
              OutlineHttp 200 (OutlineNull "err is null" "currentCourse is null") =
                OutlineHttp status (OutlineObject detail (Return course)) ∧
              ok status = true)
      by (intros (? & ? & ? & [=] & _)).
    split.
    + apply Hpage. exact Hnot.
    + apply (Hlanding Hnot). exists 200, "err is null", "currentCourse is null".
      split; reflexivity.
Defined.

(** ** [escAttr], one character at a time *)

Lemma replace_all_append c by_ a b :
  Markup.replace_all c by_ (a +:+ b) =
  Markup.replace_all c by_ a +:+ Markup.replace_all c by_ b.
Proof.
  induction a as [|x a IH]; [reflexivity|].
  rewrite append_cons. simpl. rewrite IH.
  destruct (Ascii.eqb x c); [rewrite append_assoc|]; reflexivity.
Qed.

(** The five replacements, in the order of [escAttr]. *)
Lemma escAttr_passes_cons a r :
  Markup.escAttr (Some (String a r)) = escAttr_char a +:+ Markup.escAttr (Some r).
Proof.
  assert (Hr : Markup.escAttr (Some r) =
    Markup.replace_all ">" "&gt;"
      (Markup.replace_all "<" "&lt;"
         (Markup.replace_all "'" "&#39;"
            (Markup.replace_all "034" "&quot;"
               (Markup.replace_all "&" "&amp;" r))))).
  { destruct r; reflexivity. }
  rewrite Hr. unfold Markup.escAttr.
  change (String a r) with (String a "" +:+ r).
  rewrite !replace_all_append. f_equal.
  destruct a as [[] [] [] [] [] [] [] []]; reflexivity.
Qed.

Lemma escAttr_flat_map s :
  Markup.escAttr (Some s) = flat_map_string escAttr_char s.
Proof.
  induction s as [|a r IH]; [reflexivity|].
  rewrite escAttr_passes_cons, IH. reflexivity.
Qed.

(** X10: the five replacements of [escAttr] amount to escaping each
    character once: nothing an earlier replacement wrote is replaced by a
    later one, so an ampersand comes out as [&amp;] and never as
    [&amp;amp;]. *)
Theorem escAttr_escapes_each_character_once s :
  Markup.escAttr (Some s) = flat_map_string escAttr_char s.
Proof. exact (escAttr_flat_map s). Qed.

Lemma escAttr_char_cases a :
  (a = "&"%char ∧ escAttr_char a = "&amp;") ∨
  (a = "034"%char ∧ escAttr_char a = "&quot;") ∨
  (a = "'"%char ∧ escAttr_char a = "&#39;") ∨
  (a = "<"%char ∧ escAttr_char a = "&lt;") ∨
  (a = ">"%char ∧ escAttr_char a = "&gt;") ∨
  (a ≠ "&"%char ∧ escAttr_char a = String a "").
Proof.
  unfold escAttr_char.
  destruct (Ascii.eqb_spec a "&"); [auto|].
  destruct (Ascii.eqb_spec a "034"); [auto|].
  destruct (Ascii.eqb_spec a "'"); [auto 6|].
  destruct (Ascii.eqb_spec a "<"); [auto 6|].
  destruct (Ascii.eqb_spec a ">"); [auto 8|].
  auto 10.
Qed.

Lemma flat_map_escAttr_char_inj s1 s2 :
  flat_map_string escAttr_char s1 = flat_map_string escAttr_char s2 → s1 = s2.
Proof.
  revert s2. induction s1 as [|a r1 IH]; intros [|b r2]; simpl.
  - reflexivity.
  - destruct (escAttr_char_cases b) as [[_ ->]|[[_ ->]|[[_ ->]|[[_ ->]|[[_ ->]|[_ ->]]]]]];
      rewrite !append_cons; discriminate.
  - destruct (escAttr_char_cases a) as [[_ ->]|[[_ ->]|[[_ ->]|[[_ ->]|[[_ ->]|[_ ->]]]]]];
      rewrite !append_cons; discriminate.
  - destruct (escAttr_char_cases a) as [[-> ->]|[[-> ->]|[[-> ->]|[[-> ->]|[[-> ->]|[Ha ->]]]]]];
      destruct (escAttr_char_cases b) as [[-> ->]|[[-> ->]|[[-> ->]|[[-> ->]|[[-> ->]|[Hb ->]]]]]];
      rewrite !append_cons; intros H; injection H; clear H;
      try discriminate; try congruence;
      intros; f_equal; try congruence; apply IH; assumption.
Qed.

(** X11: [escAttr] loses nothing: two texts that are escaped to the same
    attribute value are the same text. *)
Theorem escAttr_is_injective s1 s2 :
  Markup.escAttr (Some s1) = Markup.escAttr (Some s2) → s1 = s2.
Proof.
  rewrite !escAttr_flat_map.
  apply flat_map_escAttr_char_inj.
Qed.

Lemma escAttr_is_injective_witness :
  Markup.escAttr (Some "a&b") = "a&amp;b" ∧ "a&b" = "a&b".
Proof.
  split; [reflexivity|].
  exact (escAttr_is_injective "a&b" "a&b" eq_refl).
Defined.

(** ** The tags of a resource card *)

Lemma count_char_append c a b :
  count_char c (a +:+ b) = (count_char c a + count_char c b)%nat.
Proof.
  induction a as [|x a IH]; [reflexivity|].
  rewrite append_cons. simpl. rewrite IH. lia.
Qed.

Lemma count_char_if c (b : bool) x y :
  count_char c (if b then x else y) = if b then count_char c x else count_char c y.
Proof. destruct b; reflexivity. Qed.

Lemma count_char_absent c s : has_char c s = false → count_char c s = 0%nat.
Proof.
  induction s as [|a r IH]; simpl; [reflexivity|].
  intros H. apply orb_false_iff in H as [-> Hr]. rewrite (IH Hr). reflexivity.
Qed.

Lemma escHtml_count_angle str :
  count_char "<" (Markup.escHtml str) = 0%nat ∧
  count_char ">" (Markup.escHtml str) = 0%nat.
Proof.
  destruct str as [[|c r]|]; try (split; reflexivity).
  destruct (serialize_text_no_angle_upto (String.length (String c r)) (String c r))
    as [H1 H2]; [lia|].
  split; apply count_char_absent; assumption.
Qed.

Lemma escAttr_count_angle str :
  count_char "<" (Markup.escAttr str) = 0%nat ∧
  count_char ">" (Markup.escAttr str) = 0%nat.
Proof.
  destruct str as [s|]; [|split; reflexivity].
  rewrite escAttr_flat_map.
  induction s as [|a r [IH1 IH2]]; [split; reflexivity|]. simpl.
  rewrite !count_char_append, IH1, IH2.
  destruct (escAttr_char_cases a) as [[_ ->]|[[_ ->]|[[_ ->]|[[_ ->]|[[_ ->]|[_ Ha]]]]]];
    try (split; reflexivity).
  rewrite Ha. unfold escAttr_char in Ha.
  destruct (Ascii.eqb a "&"); [discriminate|].
  destruct (Ascii.eqb a "034"); [discriminate|].
  destruct (Ascii.eqb a "'"); [discriminate|].
  destruct (Ascii.eqb a "<") eqn:Hlt; [discriminate|].
  destruct (Ascii.eqb a ">") eqn:Hgt; [discriminate|].
  simpl. rewrite Hlt, Hgt. split; reflexivity.
Qed.

(** X12: whatever the URL, title, description and thumbnail of a resource
    are, its card has the tags of the template and no other: the numbers of
    [<] and of [>] in the card depend only on whether there is a thumbnail
    and a description. *)
Theorem resource_cards_keep_their_tags r :
  let desc := if Markup.truthy (Resource.description r) then 2%nat else 0%nat in
  let thumb := if Markup.truthy (Resource.thumbnail r) then 1%nat else 2%nat in
  count_char "<" (Markup.web_card r) = (8 + desc)%nat ∧
  count_char ">" (Markup.web_card r) = (8 + desc)%nat ∧
  count_char "<" (Markup.youtube_card r) = (8 + thumb + desc)%nat ∧
  count_char ">" (Markup.youtube_card r) = (8 + thumb + desc)%nat.
Proof.
  unfold Markup.web_card, Markup.youtube_card.
  pose proof (escHtml_count_angle (Resource.title r)) as [Ht1 Ht2].
  pose proof (escHtml_count_angle (Resource.description r)) as [Hd1 Hd2].
  pose proof (escAttr_count_angle (Resource.url r)) as [Hu1 Hu2].
  pose proof (escAttr_count_angle (Resource.thumbnail r)) as [Hi1 Hi2].
  pose proof (escAttr_count_angle (Resource.title r)) as [Ha1 Ha2].
  repeat first [rewrite count_char_append | rewrite count_char_if].
  rewrite ?Ht1, ?Ht2, ?Hd1, ?Hd2, ?Hu1, ?Hu2, ?Hi1, ?Hi2, ?Ha1, ?Ha2.
  destruct (Markup.truthy (Resource.description r));
    destruct (Markup.truthy (Resource.thumbnail r));
    vm_compute; auto.
Qed.

(** ** Months *)

Lemma totalMonths_cons4 (a b c d : Week.t) ws :
  totalMonths (a :: b :: c :: d :: ws) = S (totalMonths ws).
Proof.
  unfold totalMonths. simpl length.
  replace (S (S (S (S (length ws)))) + 3)%nat with (length ws + 3 + 1 * 4)%nat by lia.
  rewrite Nat.div_add by discriminate. lia.
Qed.

Lemma months_partition_upto n ws :
  (length ws ≤ n)%nat →
  concat (map (monthWeeks ws) (seq 0 (totalMonths ws))) = ws.
Proof.
  revert ws. induction n as [|n IH]; intros ws Hlen.
  - destruct ws; [reflexivity | simpl in Hlen; lia].
  - destruct ws as [|a [|b [|c [|d ws]]]]; try reflexivity.
    rewrite totalMonths_cons4. simpl seq. simpl map. simpl concat.
    unfold monthWeeks at 1. simpl.
    apply (f_equal (λ l, a :: b :: c :: d :: l)).
    rewrite <- seq_shift, map_map.
    rewrite <- (IH ws) at 2 by (simpl in Hlen; lia).
    reflexivity.
Qed.

(** X13: the timeline is made of month blocks that split the weeks without
    losing, repeating or reordering any: the months' weeks, one month after
    the other, are the weeks of the course; every month has one to four
    weeks, and its header reads [Month] and its number, from 1, for the
    first seven months as for the later ones. *)
Theorem months_partition_the_weeks h ws :
  (ws ≠ [] →
   Markup.renderWeeklyTimeline h ws =
     "<div class=" +:+ Markup.dq +:+ "timeline" +:+ Markup.dq +:+ ">" +:+
     String.concat ""
       (map (λ m, month_block (monthLabel m)
                    (String.concat "" (map (Markup.renderWeekCard h) (monthWeeks ws m))))
            (seq 0 (totalMonths ws))) +:+
     "</div>") ∧
  concat (map (monthWeeks ws) (seq 0 (totalMonths ws))) = ws ∧
  (∀ m, (m < totalMonths ws)%nat →
        (1 ≤ length (monthWeeks ws m) ≤ 4)%nat) ∧
  (∀ m, monthLabel m = "Month " +:+ pretty (m + 1)%nat).
Proof.
  split; [destruct ws; [congruence | reflexivity]|].
  split; [apply (months_partition_upto (length ws)); lia|]. split.
  - intros m Hm. unfold monthWeeks, totalMonths in *.
    rewrite length_take, length_drop.
    assert (m * 4 < length ws)%nat; [|lia].
    pose proof (Nat.div_mod_eq (length ws + 3) 4) as Hdiv.
    pose proof (Nat.mod_upper_bound (length ws + 3) 4) as Hmod. lia.
  - intros m. unfold monthLabel.
    do 7 (destruct m as [|m]; [reflexivity|]). reflexivity.
Qed.

Lemma months_partition_the_weeks_witness :
  let ws := replicate 5 Sample.week1 in
  totalMonths ws = 2%nat ∧
  (1 ≤ length (monthWeeks ws 1) ≤ 4)%nat ∧
  Markup.renderWeeklyTimeline [] ws =
    "<div class=" +:+ Markup.dq +:+ "timeline" +:+ Markup.dq +:+ ">" +:+
    String.concat ""
      (map (λ m, month_block (monthLabel m)
                   (String.concat "" (map (Markup.renderWeekCard []) (monthWeeks ws m))))
           [0; 1]%nat) +:+
    "</div>".
Proof.
  intros ws. destruct (months_partition_the_weeks [] ws) as (Hr & _ & Hlen & _).
  split; [reflexivity|]. split.
  - apply Hlen. vm_compute. lia.
  - apply Hr. discriminate.
Defined.

(** ** The status indicator *)

Lemma elem_of_classList_add x c l : x ∈ classList_add c l ↔ x = c ∨ x ∈ l.
Proof.
  unfold classList_add. destruct (decide (c ∈ l)) as [Hc|Hc].
  - split; [intros H; right; exact H|]. intros [Hx|H]; [subst x|]; assumption.
  - rewrite elem_of_app. split.
    + intros [H|H]; [right; exact H|]. left. apply list_elem_of_singleton, H.
    + intros [H|H]; [right; apply list_elem_of_singleton, H | left; exact H].
Qed.

Lemma elem_of_classList_remove x c l : x ∈ classList_remove c l ↔ x ≠ c ∧ x ∈ l.
Proof. exact (list_elem_of_filter (λ y, y ≠ c) l x). Qed.

(** X14: after a health check the indicator is consistent, whatever it
    showed before: the dot has the class [connected] and the text reads
    [Ollama Connected] exactly when the answer is JSON whose
    [ollama.status] is [connected], with any status code; otherwise the dot
    has the class [disconnected]; it never has both, and its other classes
    are kept. *)
Theorem status_indicator_is_consistent r ui :
  let ui' := checkOllamaStatus r ui in
  let connected :=
    ∃ status detail o, r = Http status (Json detail (Health.mk (Some o))) ∧
                       Ollama.status o = Some "connected" in
  ("connected" ∈ statusDot ui' ↔ connected) ∧
  ("disconnected" ∈ statusDot ui' ↔ ¬ connected) ∧
  (statusText ui' = "Ollama Connected" ↔ connected) ∧
  (∀ c, c ≠ "connected" → c ≠ "disconnected" →
        (c ∈ statusDot ui' ↔ c ∈ statusDot ui)).
Proof.
  intros ui' connected.
  assert (Htry : (health_try r = Return true ∧ connected) ∨
                 ((health_try r = Return false ∨ ∃ e, health_try r = Throw e) ∧
                  ¬ connected)).
  { unfold connected. destruct r as [e|status [detail [[[[s|]]|]]|e]]; simpl.
    - right. split; [eauto|]. intros (? & ? & ? & ? & _). discriminate.
    - destruct (bool_decide_reflect (Some s = Some "connected")) as [Hs|Hs].
      + left. split; [reflexivity|]. eauto.
      + right. split; [auto|].
        intros (? & ? & ? & [= <- <- <-] & ?). simpl in *. contradiction.
    - right. split; [auto|].
      intros (? & ? & ? & [= <- <- <-] & ?). simpl in *. discriminate.
    - right. split; [auto|]. intros (? & ? & ? & ? & _). discriminate.
    - right. split; [eauto|]. intros (? & ? & ? & ? & _). discriminate. }
  unfold ui', checkOllamaStatus.
  destruct Htry as [[-> Hc]|[[->|[e ->]] Hc]]; simpl;
    (split; [|split; [|split; [|intros c Hc1 Hc2]]]);
    rewrite ?elem_of_classList_remove, ?elem_of_classList_add;
    intuition (discriminate || congruence).
Qed.

(** ** The model list and the form *)

Lemma submit_without_model goalValue :
  ∃ t, handleGenerate goalValue "" = Blocked t.
Proof.
  unfold handleGenerate. destruct (trim goalValue); eexists; reflexivity.
Qed.

Lemma submit_with_model goalValue modelValue :
  trim goalValue ≠ "" → modelValue ≠ "" →
  handleGenerate goalValue modelValue =
    Submitted loading (mkOutlineRequest (trim goalValue) modelValue).
Proof.
  unfold handleGenerate. intros Hg Hm.
  destruct (trim goalValue); [contradiction|].
  destruct modelValue; [contradiction|]. reflexivity.
Qed.

(** X15: when the backend lists models, the picker offers them and nothing
    else: its options carry the models' names, in the backend's order, and
    the hint counts them, with [model] in the singular for one.  Every
    option is a model the backend listed, and a submission with it and a
    goal that is not blank sends the request for that model, with the goal
    trimmed, unless the model's name is empty: that option is refused like
    an empty picker, with the toast that asks for a model. *)
Theorem picker_offers_the_models toFixed1 r ms :
  models_try r = Return ms →
  ms ≠ [] →
  let picker := loadOllamaModels toFixed1 r in
  value <$> options picker = ModelInfo.name <$> ms ∧
  modelHint picker =
    pretty (length ms) +:+ " model" +:+
    (if decide (length ms = 1%nat) then "" else "s") +:+ " available locally" ∧
  ∀ o goalValue,
    o ∈ options picker → trim goalValue ≠ "" →
    (∃ m, m ∈ ms ∧ ModelInfo.name m = value o) ∧
    handleGenerate goalValue (value o) =
      if decide (value o = "")
      then Blocked (mkToast "Please select an Ollama model" true)
      else Submitted loading (mkOutlineRequest (trim goalValue) (value o)).
Proof.
  intros Hr Hne picker. unfold picker, loadOllamaModels. rewrite Hr.
  destruct ms as [|m ms]; [contradiction|]. cbn [options modelHint].
  split; [|split].
  - rewrite <- list_fmap_compose. reflexivity.
  - destruct ms as [|m' ms]; reflexivity.
  - intros o g Ho Hg. split.
    + apply list_elem_of_fmap in Ho as (m0 & -> & Hm0). exists m0. auto.
    + destruct (decide (value o = "")) as [Hv|Hv].
      * rewrite Hv. unfold handleGenerate.
        destruct (trim g); [contradiction | reflexivity].
      * apply submit_with_model; assumption.
Qed.

Lemma picker_offers_the_models_witness :
  let picker := loadOllamaModels (λ _, "4.7") Samples.tags_answer in
  value <$> options picker = ["llama3"; "phi3"] ∧
  modelHint picker = "2 models available locally" ∧
  handleGenerate " Learn Rust " "phi3" =
    Submitted loading (mkOutlineRequest "Learn Rust" "phi3") ∧
  handleGenerate "Learn Rust"
      (value (mkSelectOption "" (model_text (λ _, "4.7") Samples.unnamed))) =
    Blocked (mkToast "Please select an Ollama model" true).
Proof.
  intros picker.
  destruct (picker_offers_the_models (λ _, "4.7") Samples.tags_answer Samples.tags
              eq_refl ltac:(discriminate)) as (Hv & Hh & Hsub).
  split; [exact Hv|]. split; [exact Hh|]. split.
  - destruct (Hsub (mkSelectOption "phi3" "phi3") " Learn Rust ") as [_ Hsent].
    + right. left.
    + discriminate.
    + exact Hsent.
  - destruct (picker_offers_the_models (λ _, "4.7")
                (Http 200 (Json None (mkModelsJson (Some [Samples.unnamed]))))
                [Samples.unnamed] eq_refl ltac:(discriminate)) as (_ & _ & Hsub').
    destruct (Hsub' (mkSelectOption "" (model_text (λ _, "4.7") Samples.unnamed))
                    "Learn Rust") as [_ Hblocked].
    + left.
    + discriminate.
    + exact Hblocked.
Defined.

(** X16: when the backend lists no model, answers with an error status or
    not with JSON, or cannot be reached, the picker holds one placeholder
    option with an empty value, and a submission with it sends nothing,
    whatever the goal: it ends in a toast. *)
Theorem no_models_no_submission toFixed1 r :
  models_try r = Return [] ∨ (∃ e, models_try r = Throw e) →
  let picker := loadOllamaModels toFixed1 r in
  (∃ text, options picker = [mkSelectOption "" text]) ∧
  ∀ o goalValue, o ∈ options picker →
    ∃ t, handleGenerate goalValue (value o) = Blocked t.
Proof.
  intros Hr picker.
  assert (Hp : ∃ text, options picker = [mkSelectOption "" text]).
  { unfold picker, loadOllamaModels.
    destruct Hr as [->|[e ->]]; eexists; reflexivity. }
  split; [exact Hp|]. destruct Hp as [text ->].
  intros o g Ho. apply list_elem_of_singleton in Ho as ->.
  apply submit_without_model.
Qed.

Lemma no_models_no_submission_witness :
  ∃ t, handleGenerate "Learn Rust" "" = Blocked t ∧
       options (loadOllamaModels (λ _, "0.0") (Rejected "Failed to fetch")) =
         [mkSelectOption "" "⚠ Cannot connect to backend"].
Proof.
  destruct (no_models_no_submission (λ _, "0.0") (Rejected "Failed to fetch"))
    as [_ Hblocked].
  - right. exists "Failed to fetch". reflexivity.
  - destruct (Hblocked (mkSelectOption "" "⚠ Cannot connect to backend") "Learn Rust")
      as [t Ht]; [left|].
    exists t. split; [exact Ht | reflexivity].
Defined.

(** ** Trimming the goal *)

(** The white space of ASCII: tab, line feed, vertical tab, form feed,
    carriage return and space. *)
Lemma strip_ascii_space c s :
  c ∈ ["009"; "010"; "011"; "012"; "013"; " "]%char →
  strip_any white_space (c :: s) = Some s.
Proof.
  intros Hc. repeat (apply elem_of_cons in Hc as [->|Hc]; [reflexivity|]).
  inversion Hc.
Qed.

Lemma trimStart_blank s :
  Forall (λ c, c ∈ ["009"; "010"; "011"; "012"; "013"; " "]%char) s →
  trimStart s = [].
Proof.
  unfold trimStart. induction 1 as [|c s Hc _ IH]; [reflexivity|].
  simpl length. cbn [strip_all]. rewrite (strip_ascii_space c s Hc). exact IH.
Qed.

(** X17: a goal made of spaces, tabs and line breaks only, the empty goal
    among them, is not submitted: the toast asks for a learning goal and no
    request is sent, whichever model is selected. *)
Theorem blank_goal_is_blocked goalValue modelValue :
  Forall (λ c, c ∈ ["009"; "010"; "011"; "012"; "013"; " "]%char)
         (list_ascii_of_string goalValue) →
  handleGenerate goalValue modelValue =
    Blocked (mkToast "Please enter a learning goal" true).
Proof.
  intros Hblank. unfold handleGenerate, trim.
  rewrite (trimStart_blank _ Hblank). reflexivity.
Qed.

Lemma blank_goal_is_blocked_witness :
  handleGenerate "  	 " "llama3" = Blocked (mkToast "Please enter a learning goal" true).
Proof.
  apply blank_goal_is_blocked. repeat constructor.
Defined.

Lemma strip_any_visible a s :
  visible_ascii a →
  strip_any white_space (a :: s) = None ∧
  strip_any (map reverse white_space) (a :: s) = None.
Proof.
  intros [Hlo Hhi]. apply Nat.leb_le in Hlo, Hhi.
  destruct a as [[] [] [] [] [] [] [] []];
    first [ discriminate Hlo | discriminate Hhi | split; vm_compute; reflexivity ].
Qed.

Lemma trim_visible_ends s a b :
  head s = Some a → last s = Some b → visible_ascii a → visible_ascii b →
  trimEnd (trimStart s) = s.
Proof.
  intros Hhead Hlast Ha Hb.
  assert (Hstart : trimStart s = s).
  { apply head_Some in Hhead as [l ->]. unfold trimStart. simpl length.
    cbn [strip_all]. rewrite (proj1 (strip_any_visible a l Ha)). reflexivity. }
  rewrite Hstart. apply last_Some in Hlast as [l ->].
  unfold trimEnd. rewrite reverse_snoc, length_app, Nat.add_1_r.
  cbn [strip_all]. rewrite (proj2 (strip_any_visible b (reverse l) Hb)).
  rewrite reverse_cons, reverse_involutive. reflexivity.
Qed.

(** X18: a goal that begins and ends with a visible character of ASCII is
    sent as it was typed, together with the model selected, and the loading
    page is shown. *)
Theorem plain_goal_is_sent_as_typed goalValue modelValue a b :
  head (list_ascii_of_string goalValue) = Some a →
  last (list_ascii_of_string goalValue) = Some b →
  visible_ascii a → visible_ascii b →
  modelValue ≠ "" →
  handleGenerate goalValue modelValue =
    Submitted loading (mkOutlineRequest goalValue modelValue).
Proof.
  intros Hhead Hlast Ha Hb Hm.
  assert (Htrim : trim goalValue = goalValue).
  { unfold trim. rewrite (trim_visible_ends _ a b Hhead Hlast Ha Hb).
    apply string_of_list_ascii_of_string. }
  rewrite <- Htrim at 2. apply submit_with_model; [|exact Hm].
  rewrite Htrim. intros ->. discriminate Hhead.
Qed.

Lemma plain_goal_is_sent_as_typed_witness :
  handleGenerate "Learn Rust" "llama3" =
    Submitted loading (mkOutlineRequest "Learn Rust" "llama3").
Proof.
  apply (plain_goal_is_sent_as_typed "Learn Rust" "llama3" "L" "t");
    try reflexivity; try discriminate; split; apply Nat.leb_le; reflexivity.
Defined.

Lemma strip_prefix_Some p s r : strip_prefix p s = Some r → s = p ++ r.
Proof.
  revert s. induction p as [|a p IH]; intros [|b s]; simpl; try discriminate.
  - intros [= ->]. reflexivity.
  - intros [= ->]. reflexivity.
  - destruct (Ascii.eqb_spec a b) as [->|_]; [|discriminate].
    intros H. rewrite (IH s H). reflexivity.
Qed.

Lemma strip_prefix_app p s r x :
  strip_prefix p s = Some r → strip_prefix p (s ++ x) = Some (r ++ x).
Proof.
  revert s. induction p as [|a p IH]; intros [|b s]; simpl; try discriminate.
  - intros [= <-]. reflexivity.
  - intros [= <-]. reflexivity.
  - destruct (Ascii.eqb a b); [apply IH | discriminate].
Qed.

Lemma strip_any_Some ps s r :
  strip_any ps s = Some r → ∃ p, p ∈ ps ∧ s = p ++ r.
Proof.
  induction ps as [|p ps IH]; simpl; [discriminate|].
  destruct (strip_prefix p s) as [r'|] eqn:Hp.
  - intros [= <-]. exists p. split; [left | apply strip_prefix_Some, Hp].
  - intros H. destruct (IH H) as (q & Hq & Hs). exists q. split; [right|]; assumption.
Qed.

Lemma strip_any_app ps s x :
  strip_any ps s ≠ None → strip_any ps (s ++ x) ≠ None.
Proof.
  induction ps as [|p ps IH]; simpl; [auto|].
  destruct (strip_prefix p s) as [r|] eqn:Hp.
  - rewrite (strip_prefix_app _ _ _ x Hp). discriminate.
  - intros H. destruct (strip_prefix p (s ++ x)); [discriminate | auto].
Qed.

Lemma strip_all_spec n ps s :
  Forall (λ p, p ≠ []) ps → (length s ≤ n)%nat →
  strip_any ps (strip_all n ps s) = None ∧ ∃ front, s = front ++ strip_all n ps s.
Proof.
  intros Hps. revert s. induction n as [|n IH]; intros s Hlen.
  - destruct s; [|simpl in Hlen; lia]. split; [|exists []; reflexivity].
    simpl. induction Hps as [|p ps Hp _ IHps]; simpl; [reflexivity|].
    destruct p; [contradiction | exact IHps].
  - simpl. destruct (strip_any ps s) as [r|] eqn:Hs.
    + destruct (strip_any_Some _ _ _ Hs) as (p & Hp & ->).
      rewrite Forall_forall in Hps. specialize (Hps p Hp).
      destruct (IH r) as [Hnone [front Hfront]].
      { rewrite length_app in Hlen. destruct p; [contradiction|]. simpl in Hlen. lia. }
      split; [exact Hnone|]. exists (p ++ front).
      rewrite <- app_assoc, <- Hfront. reflexivity.
    + split; [exact Hs | exists []; reflexivity].
Qed.

Lemma white_space_not_empty :
  Forall (λ p, p ≠ []) white_space ∧ Forall (λ p, p ≠ []) (map reverse white_space).
Proof. split; repeat constructor; discriminate. Qed.

Lemma trim_is_trimmed s : trimmed (trim s).
Proof.
  unfold trimmed, trim. rewrite list_ascii_of_string_of_list_ascii.
  destruct white_space_not_empty as [Hws Hrev].
  set (t := trimStart (list_ascii_of_string s)).
  destruct (strip_all_spec (length (list_ascii_of_string s)) white_space
              (list_ascii_of_string s) Hws (le_n _)) as [Hstart _].
  fold (trimStart (list_ascii_of_string s)) in Hstart. fold t in Hstart.
  destruct (strip_all_spec (length t) (map reverse white_space) (reverse t) Hrev)
    as [Hend [front Hfront]]; [rewrite length_reverse; lia|].
  split.
  - destruct (strip_any white_space (trimEnd t)) eqn:Hcase; [|reflexivity].
    exfalso. apply (strip_any_app white_space (trimEnd t) (reverse front)).
    + rewrite Hcase. discriminate.
    + unfold trimEnd. rewrite <- reverse_app, <- Hfront, reverse_involutive.
      exact Hstart.
  - unfold trimEnd. rewrite reverse_involutive. exact Hend.
Qed.

(** X19: the goal of a request is the goal typed with the white space at
    its ends removed: whenever a submission sends a request, the page shown
    is the loading page, the request names the model selected, which is not
    empty, and its goal is not empty and has white space neither in front
    nor at its end. *)
Theorem submitted_goal_is_trimmed goalValue modelValue page req :
  handleGenerate goalValue modelValue = Submitted page req →
  page = loading ∧
  or_model req = modelValue ∧ modelValue ≠ "" ∧
  or_goal req = trim goalValue ∧ or_goal req ≠ "" ∧
  trimmed (or_goal req).
Proof.
  unfold handleGenerate. pose proof (trim_is_trimmed goalValue) as Ht.
  destruct (trim goalValue) as [|a r]; [discriminate|].
  destruct modelValue as [|c m]; [discriminate|].
  intros [= <- <-]. simpl. repeat split; try discriminate; apply Ht.
Qed.

Lemma submitted_goal_is_trimmed_witness :
  ∃ req, handleGenerate "   Learn Rust
 " "llama3" = Submitted loading req ∧ or_goal req = "Learn Rust" ∧ trimmed (or_goal req).
Proof.
  eexists. split; [reflexivity|].
  destruct (submitted_goal_is_trimmed "   Learn Rust
 " "llama3" loading _ eq_refl) as (_ & _ & _ & Hg & _ & Ht).
  split; [exact Hg | exact Ht].
Defined.

(** ** The loading steps *)

Lemma iff_by_decide (P Q : Prop) `{Decision P, Decision Q} :
  bool_decide P = bool_decide Q → (P ↔ Q).
Proof.
  intros Heq. rewrite <- (bool_decide_spec P), <- (bool_decide_spec Q), Heq.
  reflexivity.
Qed.

Lemma fire_stopped ld : interval ld = false → fire ld = ld.
Proof. unfold fire. intros ->. reflexivity. Qed.

Lemma iter_fire_stopped k ld : interval ld = false → Nat.iter k fire ld = ld.
Proof.
  intros Hld. induction k as [|k IH]; [reflexivity|].
  simpl. rewrite IH. apply fire_stopped, Hld.
Qed.

(** The steps after [k] runs of the callback are those after [min k 5]. *)
Lemma iter_fire_capped status k :
  Nat.iter k fire (animateLoadingSteps status) =
  Nat.iter (min k 5) fire (animateLoadingSteps status).
Proof.
  destruct (Nat.le_gt_cases k 5) as [Hk|Hk].
  - rewrite Nat.min_l by exact Hk. reflexivity.
  - rewrite Nat.min_r by lia.
    replace (Nat.iter k fire (animateLoadingSteps status))
      with (Nat.iter ((k - 5) + 5) fire (animateLoadingSteps status))
      by (f_equal; lia).
    rewrite Nat.iter_add. apply iter_fire_stopped. reflexivity.
Qed.

(** X20: the loading steps advance one at a time and stop: after [k] runs
    of the interval's callback there are four steps, step [j] (from 1) is
    active exactly when it is the [min k 4]-th and done exactly when it
    comes before that one, so no two steps are active, no step is both,
    and the fourth step stays active and is never done; the interval is
    cleared by the fifth run. *)
Theorem loading_steps_advance status k :
  let ld := Nat.iter k fire (animateLoadingSteps status) in
  length (stepEls ld) = 4%nat ∧
  (∀ j e, stepEls ld !! j = Some e →
     ("active" ∈ className e ↔ S j = min k 4) ∧
     ("done" ∈ className e ↔ (S j < min k 4)%nat)) ∧
  (interval ld = true ↔ (k < 5)%nat).
Proof.
  intros ld. subst ld. rewrite iter_fire_capped.
  assert (Hk : (min k 4 = min (min k 5) 4 ∧ (k < 5 ↔ min k 5 < 5))%nat) by lia.
  destruct Hk as [-> ->].
  assert (Hcases : (min k 5 ≤ 5)%nat) by lia.
  generalize dependent (min k 5). clear k. intros k Hk.
  do 6 (destruct k as [|k]; [
    split; [reflexivity|]; split;
      [ intros j e Hj;
        do 4 (destruct j as [|j]; [injection Hj as <-;
          split; apply (iff_by_decide _ _); vm_compute; reflexivity|]);
        discriminate Hj
      | apply (iff_by_decide _ _); vm_compute; reflexivity ] |]).
  lia.
Qed.

(** ** The toast and its timeouts *)

Lemma toast_step_keeps_dismissal e el :
  (visible el = true → (0 < timeouts el)%nat) →
  visible (Shell.toast_step e el) = true → (0 < timeouts (Shell.toast_step e el))%nat.
Proof.
  destruct e as [t|]; simpl.
  - intros _ _. lia.
  - destruct el as [i m v [|n]]; simpl; [auto | discriminate].
Qed.

(** X21: a toast never stays for good, and may go early: from a hidden
    toast, after any toasts and timeouts, a visible toast has a timeout
    still to fire; and a toast shown while an earlier toast's timeout is
    pending is hidden when that one fires, with its own timeout still to
    come. *)
Theorem visible_toast_will_be_dismissed es t el :
  let shown := foldl (λ el e, Shell.toast_step e el) (mkToastEl "" "" false 0) es in
  (visible shown = true → (0 < timeouts shown)%nat) ∧
  ((0 < timeouts el)%nat →
   let el' := Shell.timeout (Shell.showToast t el) in
   toastMessage el' = message t ∧ visible el' = false ∧ timeouts el' = timeouts el).
Proof.
  split.
  - assert (Hgen : ∀ el0, (visible el0 = true → (0 < timeouts el0)%nat) →
      let shown := foldl (λ el e, Shell.toast_step e el) el0 es in
      visible shown = true → (0 < timeouts shown)%nat).
    { induction es as [|e es IH]; intros el0 H0; simpl; [exact H0|].
      apply IH. apply toast_step_keeps_dismissal. exact H0. }
    apply Hgen. discriminate.
  - intros _. repeat split.
Qed.

(** ** Loading weeks have a fetch in flight *)

Lemma elem_of_delete_other {A} (x y : A) k (l : list A) :
  x ∈ l → l !! k = Some y → x ≠ y → x ∈ delete k l.
Proof.
  revert k. induction l as [|a l IH]; intros k Hx Hk Hne; [inversion Hx|].
  destruct k as [|k]; simpl in *.
  - injection Hk as ->. apply elem_of_cons in Hx as [->|Hx]; [contradiction | exact Hx].
  - apply elem_of_cons in Hx as [->|Hx]; [left | right; eauto].
Qed.

Lemma lookup_alter_flag (f : Week.t → Week.t) i j (ws : list Week.t) w :
  alter f i ws !! j = Some w →
  (∀ x, Week._loading (f x) = Week._loading x) →
  ∃ x, ws !! j = Some x ∧ Week._loading x = Week._loading w.
Proof.
  intros Hw Hf. rewrite list_lookup_alter in Hw.
  destruct (decide (i = j)) as [->|_]; [|eauto].
  destruct (ws !! j) as [x|]; simpl in Hw; [|discriminate].
  injection Hw as <-. exists x. rewrite Hf. auto.
Qed.

Lemma step_keeps_loading_is_pending e st st' :
  step e st = Some st' → loading_is_pending st → loading_is_pending st'.
Proof.
  unfold loading_is_pending.
  destruct e as [weekNum|weekNum dayNum|k r|k r]; simpl.
  - intros [= <-] Hinv j w. unfold toggleWeekExpand.
    destruct (find_week weekNum (weeks st)) as [[i week]|]; [|apply Hinv].
    destruct (Week._expanded week); [|destruct (Week._days week)]; simpl.
    + intros Hw Hl. apply lookup_alter_flag in Hw as (x & Hx & Hxl); [|reflexivity].
      apply (Hinv j x Hx). congruence.
    + intros Hw Hl. apply lookup_alter_flag in Hw as (x & Hx & Hxl); [|reflexivity].
      apply (Hinv j x Hx). congruence.
    + intros Hw Hl. rewrite list_lookup_alter in Hw. apply elem_of_app.
      destruct (decide (i = j)) as [->|_].
      * right. left.
      * left. apply (Hinv j w Hw Hl).
  - intros [= <-] Hinv j w. rewrite load_keeps_weeks. intros Hw Hl.
    destruct (load_accounts weekNum dayNum st) as [[_ ->]|(? & ? & _ & ->)].
    + apply (Hinv j w Hw Hl).
    + apply elem_of_app. left. apply (Hinv j w Hw Hl).
  - destruct (inflight st !! k) as [[i|l]|] eqn:Hk; try discriminate.
    intros [= <-] Hinv j w.
    destruct (week_resume_accounts i r (set_inflight (delete k (inflight st)) st))
      as [_ ->].
    unfold toggleWeekExpand_resume. simpl.
    assert (Hclear : ∀ f : Week.t → Week.t,
      (∀ x, Week._loading (f x) = false) →
      alter f i (weeks st) !! j = Some w → Week._loading w = true →
      PendingWeek j ∈ delete k (inflight st)).
    { intros f Hf Hw Hl. rewrite list_lookup_alter in Hw.
      destruct (decide (i = j)) as [->|Hij].
      - destruct (weeks st !! j) as [x|]; simpl in Hw; [|discriminate].
        injection Hw as <-. rewrite Hf in Hl. discriminate.
      - apply (elem_of_delete_other _ (PendingWeek i)); [|exact Hk|congruence].
        apply (Hinv j w Hw Hl). }
    destruct (week_try r) as [ds|e]; simpl.
    + rewrite !list_alter_alter_eq. apply Hclear. reflexivity.
    + apply Hclear. reflexivity.
  - destruct (inflight st !! k) as [[i|l]|] eqn:Hk; try discriminate.
    intros [= <-] Hinv j w. rewrite day_resume_keeps_weeks.
    destruct (day_resume_accounts l r (set_inflight (delete k (inflight st)) st))
      as [_ ->].
    simpl. intros Hw Hl.
    apply (elem_of_delete_other _ (PendingDay l)); [|exact Hk|discriminate].
    apply (Hinv j w Hw Hl).
Qed.

(** X22: the loading indicator of a week is never left behind: at every
    state of a course, a week that is marked loading has a fetch for its
    days in flight, whose answer, good or bad, clears the mark. *)
Theorem loading_week_has_a_fetch st i w :
  reachable st →
  weeks st !! i = Some w →
  Week._loading w = true →
  PendingWeek i ∈ inflight st ∧
  ∀ k r st', inflight st !! k = Some (PendingWeek i) →
    step (WeekResponse k r) st = Some st' →
    (Week._loading <$> weeks st' !! i) = Some false.
Proof.
  intros Hst Hw Hl. split.
  - revert i w Hw Hl. change (loading_is_pending st).
    induction Hst as [course params Hws|st e st' _ IH _ Hstep].
    + intros i w Hw Hl. simpl in Hw.
      apply list_elem_of_lookup_2 in Hw. rewrite Forall_forall in Hws.
      destruct (Hws w Hw) as (_ & _ & Hwl). congruence.
    + exact (step_keeps_loading_is_pending e st st' Hstep IH).
  - intros k r st'. simpl. intros ->. intros [= <-].
    unfold toggleWeekExpand_resume. destruct (week_try r) as [ds|e]; simpl;
      rewrite ?list_alter_alter_eq, list_lookup_alter_eq, Hw; reflexivity.
Qed.

Lemma loading_week_has_a_fetch_witness :
  let st := toggleWeekExpand 1 Sample.st0 in
  PendingWeek 0 ∈ inflight st ∧
  ∃ st', step (WeekResponse 0 (Rejected "Failed to fetch")) st = Some st' ∧
         (Week._loading <$> weeks st' !! 0%nat) = Some false.
Proof.
  intros st.
  destruct (loading_week_has_a_fetch st 0 (Week.set_loading true Sample.week1))
    as [Hin Hclear].
  - apply (reachable_step _ Sample.st0 (Toggle 1)); [|exact I|reflexivity].
    apply (reachable_outline _ Sample.outline Sample.params). repeat constructor.
  - reflexivity.
  - reflexivity.
  - split; [exact Hin|]. eexists. split; [reflexivity|].
    apply (Hclear 0%nat (Rejected "Failed to fetch")); reflexivity.
Defined.

(** ** From a week's answer to a day's request *)




(** ** Text that needs no escaping *)

(** X24: what the escaping functions give back holds none of the
    characters that would end the place it is put in: [escHtml] gives no
    [<] and no [>], [escAttr] gives none of the two quotes, [<] and [>]. *)
Theorem escaped_text_has_no_delimiters str :
  has_char "<" (Markup.escHtml str) = false ∧
  has_char ">" (Markup.escHtml str) = false ∧
  has_char "034" (Markup.escAttr str) = false ∧
  has_char "'" (Markup.escAttr str) = false ∧
  has_char "<" (Markup.escAttr str) = false ∧
  has_char ">" (Markup.escAttr str) = false.
Proof.
  destruct (escHtml_no_angle str) as [H1 H2].
  destruct (escAttr_no_delimiter str) as (H3 & H4 & H5 & H6).
  auto 10.
Qed.

Lemma flat_map_escAttr_char_plain s :
  has_char "&" s = false → has_char "034" s = false → has_char "'" s = false →
  has_char "<" s = false → has_char ">" s = false →
  flat_map_string escAttr_char s = s.
Proof.
  induction s as [|a r IH]; [reflexivity|]. simpl.
  intros H1 H2 H3 H4 H5.
  apply orb_false_iff in H1 as [A1 R1]. apply orb_false_iff in H2 as [A2 R2].
  apply orb_false_iff in H3 as [A3 R3]. apply orb_false_iff in H4 as [A4 R4].
  apply orb_false_iff in H5 as [A5 R5].
  rewrite (IH R1 R2 R3 R4 R5). unfold escAttr_char.
  rewrite A1, A2, A3, A4, A5. reflexivity.
Qed.

Lemma serialize_text_plain s :
  has_char "&" s = false → has_char "<" s = false → has_char ">" s = false →
  has_char "194" s = false →
  Markup.serialize_text s = s.
Proof.
  induction s as [|a r IH]; [reflexivity|].
  intros H1 H2 H3 H4. simpl in H1, H2, H3, H4.
  apply orb_false_iff in H1 as [A1 R1]. apply orb_false_iff in H2 as [A2 R2].
  apply orb_false_iff in H3 as [A3 R3]. apply orb_false_iff in H4 as [A4 R4].
  rewrite serialize_text_cons, A1, A2, A3, A4, (IH R1 R2 R3 R4).
  destruct r; reflexivity.
Qed.

(** X25: text that holds none of the characters to escape comes back as it
    is: [escAttr] keeps a text without [&], the two quotes, [<] and [>],
    and [escHtml] keeps a text without [&], [<], [>] and the byte that
    starts a no-break space. *)
Theorem plain_text_is_kept s :
  has_char "&" s = false → has_char "<" s = false → has_char ">" s = false →
  (has_char "034" s = false → has_char "'" s = false →
   Markup.escAttr (Some s) = s) ∧
  (has_char "194" s = false → Markup.escHtml (Some s) = s).
Proof.
  intros H1 H2 H3. split.
  - intros H4 H5. rewrite escAttr_flat_map.
    apply flat_map_escAttr_char_plain; assumption.
  - intros H4. destruct s as [|a r]; [reflexivity|].
    apply (serialize_text_plain (String a r)); assumption.
Qed.

Lemma plain_text_is_kept_witness :
  Markup.escAttr (Some "https://doc.rust-lang.org/book/") =
    "https://doc.rust-lang.org/book/" ∧
  Markup.escHtml (Some "The Rust Book") = "The Rust Book".
Proof.
  split.
  - apply (plain_text_is_kept "https://doc.rust-lang.org/book/"); reflexivity.
  - apply (plain_text_is_kept "The Rust Book"); reflexivity.
Defined.

(** ** Numbers in the markup, and the ids of day cards *)

Lemma pretty_N_char_digit x :
  Ascii.leb "0" (pretty_N_char x) && Ascii.leb (pretty_N_char x) "9" = true.
Proof. unfold pretty_N_char. repeat case_match; reflexivity. Qed.

Lemma pretty_N_go_digits x s :
  all_digits s = true → s ≠ "" →
  all_digits (pretty_N_go x s) = true ∧ pretty_N_go x s ≠ "".
Proof.
  revert s. induction (N.lt_wf_0 x) as [x _ IH]; intros s Hs Hne.
  assert (x = 0 ∨ 0 < x)%N as [->|Hx] by lia.
  - rewrite pretty_N_go_0. auto.
  - rewrite pretty_N_go_step by exact Hx. apply IH.
    + apply N.div_lt; [exact Hx | reflexivity].
    + simpl. rewrite pretty_N_char_digit, Hs. reflexivity.
    + discriminate.
Qed.

Lemma pretty_N_digits (x : N) : all_digits (pretty x) = true ∧ pretty x ≠ "".
Proof.
  unfold pretty, pretty_N. destruct (decide (x = 0%N)) as [->|Hx].
  - split; [reflexivity | discriminate].
  - rewrite pretty_N_go_step by lia. apply pretty_N_go_digits.
    + simpl. rewrite pretty_N_char_digit. reflexivity.
    + discriminate.
Qed.

(** A number is written as digits, after a minus sign when it is negative. *)
Lemma pretty_Z_shape (z : Z) :
  ∃ sign ds, pretty z = sign +:+ ds ∧ (sign = "" ∨ sign = "-") ∧
             all_digits ds = true ∧ ds ≠ "".
Proof.
  destruct z as [|p|p].
  - exists "", "0". repeat split; auto; discriminate.
  - exists "", (pretty (Npos p)). destruct (pretty_N_digits (Npos p)). auto.
  - exists "-", (pretty (Npos p)). destruct (pretty_N_digits (Npos p)). auto.
Qed.

Lemma append_nil_l (s : string) : "" +:+ s = s.
Proof. reflexivity. Qed.

Lemma digits_then_dash d d' v v' :
  all_digits d = true → all_digits d' = true →
  d +:+ "-" +:+ v = d' +:+ "-" +:+ v' → d = d' ∧ v = v'.
Proof.
  revert d'. induction d as [|a d IH]; intros [|a' d']; simpl;
    intros Hd Hd' H; rewrite ?append_nil_l, ?append_cons, ?append_nil_l in H.
  - injection H as ->. auto.
  - injection H as <- _. discriminate Hd'.
  - injection H as -> _. discriminate Hd.
  - injection H as -> H.
    apply andb_true_iff in Hd as [_ Hd]. apply andb_true_iff in Hd' as [_ Hd'].
    destruct (IH d' Hd Hd' H) as [-> ->]. auto.
Qed.

(** X26: the id of a day card names its week and day: two cards have the
    same id only when they have the same week number and the same day
    number, so the lookup of [day-w-d] finds a card of week [w] and day
    [d] or none; and the card [renderDayCard] writes carries that id. *)
Theorem day_ids_name_week_and_day weekNum dayNum weekNum' dayNum' day :
  (day_id weekNum dayNum = day_id weekNum' dayNum' →
   weekNum = weekNum' ∧ dayNum = dayNum') ∧
  occurs ("id=" +:+ Markup.dq +:+ day_id weekNum (Day.day day) +:+ Markup.dq)
         (Markup.renderDayCard day weekNum).
Proof.
  split.
  - unfold day_id. rewrite !append_cons. intros H. injection H as H.
    destruct (pretty_Z_shape weekNum) as (s & d & Hw & Hs & Hd & Hdn).
    destruct (pretty_Z_shape weekNum') as (s' & d' & Hw' & Hs' & Hd' & Hdn').
    rewrite Hw, Hw', !append_assoc in H.
    assert (Hsig : s = s' ∧ d +:+ "-" +:+ pretty dayNum = d' +:+ "-" +:+ pretty dayNum').
    { destruct d as [|a d]; [contradiction|]. destruct d' as [|a' d']; [contradiction|].
      simpl in Hd, Hd'.
      destruct Hs as [-> | ->]; destruct Hs' as [-> | ->];
        rewrite ?append_nil_l, ?append_cons in H.
      - injection H as Ha Hr. split; [reflexivity|].
        rewrite !append_cons, ?append_nil_l, Ha. f_equal. exact Hr.
      - injection H as -> _. discriminate Hd.
      - injection H as <- _. discriminate Hd'.
      - injection H as Ha Hr. split; [reflexivity|].
        rewrite !append_cons, ?append_nil_l, Ha. f_equal. exact Hr. }
    destruct Hsig as [-> Hrest].
    destruct (digits_then_dash _ _ _ _ Hd Hd' Hrest) as [-> Hday].
    split; [|exact (pretty_Z_inj _ _ Hday)].
    apply pretty_Z_inj. rewrite Hw, Hw'. reflexivity.
  - cbv beta zeta delta [Markup.renderDayCard].
    skip_to " 
         id=".
    exists " 
         ". eexists. unfold day_id. rewrite !append_assoc. reflexivity.
Qed.

(** ** The tags of the course header *)

Lemma count_char_digits c s :
  Ascii.leb "0" c && Ascii.leb c "9" = false → all_digits s = true →
  count_char c s = 0%nat.
Proof.
  intros Hc. induction s as [|a r IH]; simpl; [reflexivity|].
  intros H. apply andb_true_iff in H as [Ha Hr]. rewrite (IH Hr).
  destruct (Ascii.eqb_spec a c) as [->|_]; [congruence | reflexivity].
Qed.

Lemma count_char_pretty_nat c (n : nat) :
  Ascii.leb "0" c && Ascii.leb c "9" = false → count_char c (pretty n) = 0%nat.
Proof.
  intros Hc. apply (count_char_digits c _ Hc).
  exact (proj1 (pretty_N_digits (N.of_nat n))).
Qed.

Lemma count_char_concat_map {A} c (f : A → string) n (l : list A) :
  (∀ x, count_char c (f x) = n) →
  count_char c (String.concat "" (map f l)) = (n * length l)%nat.
Proof.
  intros Hf. induction l as [|x l IH]; [simpl; lia|].
  destruct l as [|y l].
  - simpl. rewrite Hf. lia.
  - change (String.concat "" (map f (x :: y :: l)))
      with (f x +:+ "" +:+ String.concat "" (map f (y :: l))).
    rewrite !count_char_append, Hf, IH. simpl. lia.
Qed.

(** X27: whatever the title, the description and the prerequisites of a
    course are, the header has the tags of the template and no other: the
    numbers of [<] and of [>] depend only on how many prerequisites there
    are. *)
Theorem course_header_keeps_its_tags course :
  let prereq :=
    match prerequisites course with
    | Some ((_ :: _) as ps) => (6 + 2 * length ps)%nat
    | _ => 0%nat
    end in
  count_char "<" (Markup.renderCourse course) = (12 + prereq)%nat ∧
  count_char ">" (Markup.renderCourse course) = (12 + prereq)%nat.
Proof.
  cbv beta zeta delta [Markup.renderCourse].
  pose proof (escHtml_count_angle (o_title course)) as [Ht1 Ht2].
  pose proof (escHtml_count_angle (o_description course)) as [Hd1 Hd2].
  assert (Hli : ∀ c, c = "<"%char ∨ c = ">"%char → ∀ p : string,
    count_char c ("<li>" +:+ Markup.escHtml (Some p) +:+ "</li>") = 2%nat).
  { intros c Hc p. rewrite !count_char_append.
    destruct (escHtml_count_angle (Some p)) as [H1 H2].
    destruct Hc as [-> | ->]; rewrite ?H1, ?H2; reflexivity. }
  destruct (prerequisites course) as [[|p ps]|];
    repeat first [rewrite count_char_append | rewrite count_char_pretty_nat by reflexivity];
    rewrite ?Ht1, ?Ht2, ?Hd1, ?Hd2;
    rewrite ?(count_char_concat_map "<" _ 2), ?(count_char_concat_map ">" _ 2)
      by (apply Hli; auto);
    split; simpl; lia.
Qed.
